(** * Transcript pipeline of [streamlit_app.py]

    A shallow embedding of the functions of [streamlit_app.py] that fetch,
    clean, store and combine the transcripts of a channel, together with
    the properties the specification states about them.

    Python values are represented as follows.
    - A [str] is the list of its Unicode code points.
    - Exceptions are values of [exn]; a computation that can raise returns
      an [outcome].
    - The file system, the standard output and the Streamlit page form the
      state [world] that the effectful functions thread. *)

From Stdlib Require Import List NArith Bool Ascii String DecimalString Lia Arith.
Import ListNotations.

Set Implicit Arguments.

(** ** Strings *)

Definition char := N.
Definition str := list char.

(** A literal of the source, written as a Rocq string of ASCII characters. *)
Definition lit (s : string) : str := map N_of_ascii (list_ascii_of_string s).

(** ["\n"] *)
Definition NL : char := 10%N.

(** [a == b] on lists, from the equality test of the elements. *)
Fixpoint list_eqb (A : Type) (eqb : A -> A -> bool) (a b : list A) : bool :=
  match a, b with
  | [], [] => true
  | x :: a', y :: b' => eqb x y && list_eqb eqb a' b'
  | _, _ => false
  end.

Definition str_eqb (a b : str) : bool := list_eqb N.eqb a b.

(** [s.startswith(p)] *)
Fixpoint startswith (p s : str) : bool :=
  match p, s with
  | [], _ => true
  | a :: p', b :: s' => N.eqb a b && startswith p' s'
  | _ :: _, [] => false
  end.

(** [s.endswith(p)] *)
Definition endswith (p s : str) : bool := startswith (rev p) (rev s).

(** [s.split(sep)] for a separator of one character: the fields between
    the occurrences of [sep]; always at least one field. *)
Fixpoint split (sep : char) (s : str) : list str :=
  match s with
  | [] => [[]]
  | c :: s' =>
      if N.eqb c sep then [] :: split sep s'
      else match split sep s' with
           | [] => [[c]]
           | field :: fields => (c :: field) :: fields
           end
  end.

(** [sep.join(parts)] *)
Fixpoint join (sep : str) (parts : list str) : str :=
  match parts with
  | [] => []
  | [p] => p
  | p :: ps => p ++ sep ++ join sep ps
  end.

(** ** The timestamp pattern

    The pattern of [remove_timestamps] is a sequence of one-character
    classes: every quantifier in it is an exact count.  [\d] on a [str]
    pattern is the Unicode decimal digit class, a table of the Python
    runtime; it is the parameter [isdigit] below. *)

Inductive atom : Type :=
| Digit
| Chr (c : char).

Definition regex := list atom.

(** [a{n}] *)
Definition times (n : nat) (a : atom) : regex := repeat a n.

Definition chars (s : str) : regex := map Chr s.

(** [\d{2}:\d{2}:\d{2},\d{3}] *)
Definition clock_re : regex :=
  times 2 Digit ++ chars (lit ":") ++ times 2 Digit ++ chars (lit ":")
    ++ times 2 Digit ++ chars (lit ",") ++ times 3 Digit.

(** [\d{2}:\d{2}:\d{2},\d{3} --> \d{2}:\d{2}:\d{2},\d{3}] *)
Definition timestamp_pattern : regex :=
  clock_re ++ chars (lit " --> ") ++ clock_re.

Section Cleaning.

(** The class [\d] of the regular-expression engine. *)
Variable isdigit : char -> bool.

Definition atom_accepts (a : atom) (c : char) : bool :=
  match a with
  | Digit => isdigit c
  | Chr k => N.eqb c k
  end.

Definition accepted (a : atom) (c : char) : Prop := atom_accepts a c = true.

(** [r.match(s) is not None]: the pattern is matched at the start of
    [s]; what follows the match is not looked at. *)
Fixpoint re_match (r : regex) (s : str) : bool :=
  match r, s with
  | [], _ => true
  | a :: r', c :: s' => atom_accepts a c && re_match r' s'
  | _ :: _, [] => false
  end.

Definition is_timestamp_line (line : str) : bool :=
  re_match timestamp_pattern line.

(** The list comprehension of [remove_timestamps]. *)
Definition filtered_lines (srt_text : str) : list str :=
  filter (fun line => negb (is_timestamp_line line)) (split NL srt_text).

Definition remove_timestamps (srt_text : str) : str :=
  join [NL] (filtered_lines srt_text).

End Cleaning.

(** The digits of ASCII, an instance of the digit class used in examples. *)
Definition ascii_digit (c : char) : bool := (48 <=? c)%N && (c <=? 57)%N.

(** [str(n)] for a non-negative integer. *)
Definition str_of_nat (n : nat) : str :=
  lit (NilEmpty.string_of_uint (Nat.to_uint n)).

(** ** Exceptions

    The classes that the collaborators and the operating system raise.
    All of them derive from [Exception], so [except Exception] catches
    every value of [exn]. *)

Inductive exn_class : Type :=
| VideoUnavailable
| InvalidVideoId
| TranscriptsDisabled
| NoTranscriptFound
| NoTranscriptAvailable
| TooManyRequests
| YouTubeRequestFailed
| NotTranslatable
| TranslationLanguageNotAvailable
| CookiePathInvalid
| CookiesInvalid
| FailedToCreateConsentCookie
| FileNotFoundError
| FileExistsError
| IsADirectoryError
| NotADirectoryError
| PermissionError
| ZeroDivisionError
| OtherException.

(** An exception instance; [exn_str e] is [str(e)]. *)
Record exn : Type := mk_exn { exn_kind : exn_class; exn_str : str }.

Inductive outcome (A : Type) : Type :=
| Ok (a : A)
| Raise (e : exn).

Arguments Ok {A} a.
Arguments Raise {A} e.

(** ** Paths and the file system

    A path is resolved lexically, the way [os.path.normpath] reads it, to
    the list of its components; an absolute path starts with the
    component ["/"].  There are no symbolic links, and the place of the
    working directory under the root is not modelled: [[]] is the working
    directory and [["/"]] the root, both always present.

    A regular file holds a text.  Files are read and written in text
    mode with UTF-8; the texts are taken to be such that this loses
    nothing (no carriage return, which reading would turn into a line
    break, and no lone surrogate, which writing would refuse).  Of the
    errors of the operating system the model has those that depend on
    what the path names: a missing entry, a directory where a file is
    expected or the reverse, and a file that may not be unlinked. *)

Definition SEP : char := 47%N.
Definition DOT : char := 46%N.

(** [os.path.join(a, b)] of [posixpath]. *)
Definition os_path_join (a b : str) : str :=
  if startswith [SEP] b then b
  else if str_eqb a [] || endswith [SEP] a then a ++ b
  else a ++ [SEP] ++ b.

Definition loc := list str.

Definition ROOT : str := [SEP].

Definition loc_eqb (a b : loc) : bool := list_eqb str_eqb a b.

(** One component pushed on the components read so far (last one first). *)
Definition push_component (stack : list str) (c : str) : list str :=
  if str_eqb c [] || str_eqb c [DOT] then stack
  else if str_eqb c [DOT; DOT] then
    match stack with
    | [] => [c]
    | top :: below =>
        if str_eqb top [DOT; DOT] then c :: stack
        else if str_eqb top ROOT then stack
        else below
    end
  else c :: stack.

Definition resolve (p : str) : loc :=
  rev (fold_left push_component (split SEP p)
         (if startswith [SEP] p then [ROOT] else [])).

(** A name a directory entry can have. *)
Definition plain_name (n : str) : bool :=
  negb (str_eqb n []) && negb (str_eqb n [DOT]) && negb (str_eqb n [DOT; DOT])
  && forallb (fun c => negb (N.eqb c SEP)) n.

(** A regular file has a content and may be [pinned]: the operating
    system then refuses to unlink it. *)
Inductive node : Type :=
| File (content : str) (pinned : bool)
| Dir.

(** The entries of the file system, in the order in which a directory
    listing returns them. *)
Definition store := list (loc * node).

Fixpoint lookup (st : store) (l : loc) : option node :=
  match st with
  | [] => None
  | (k, n) :: st' => if loc_eqb k l then Some n else lookup st' l
  end.

Definition is_base (l : loc) : bool := loc_eqb l [] || loc_eqb l [ROOT].

Definition is_dir (st : store) (l : loc) : bool :=
  is_base l || match lookup st l with Some Dir => true | _ => false end.

Definition is_file (st : store) (l : loc) : bool :=
  negb (is_base l) && match lookup st l with Some (File _ _) => true | _ => false end.

Definition present (st : store) (l : loc) : bool :=
  is_base l || match lookup st l with Some _ => true | None => false end.

(** [child_name d k] is [Some n] when [k] is the entry [n] of directory [d]. *)
Fixpoint child_name (d k : loc) : option str :=
  match d, k with
  | [], [n] => Some n
  | a :: d', b :: k' => if str_eqb a b then child_name d' k' else None
  | _, _ => None
  end.

Definition children (st : store) (d : loc) : list str :=
  flat_map (fun e => match child_name d (fst e) with
                     | Some n => [n]
                     | None => []
                     end) st.

Definition remove_at (st : store) (l : loc) : store :=
  filter (fun e => negb (loc_eqb (fst e) l)) st.

(** The content of the regular file at [l] replaced by [c]. *)
Definition set_content (st : store) (l : loc) (c : str) : store :=
  map (fun e => if loc_eqb (fst e) l
                then match snd e with
                     | File _ pin => (fst e, File c pin)
                     | Dir => e
                     end
                else e) st.

Fixpoint nodupb (ks : list loc) : bool :=
  match ks with
  | [] => true
  | k :: ks' => negb (existsb (loc_eqb k) ks') && nodupb ks'
  end.

Definition key_ok (k : loc) : bool :=
  match k with
  | [] => false
  | c :: k' =>
      if str_eqb c ROOT then negb (loc_eqb k' []) && forallb plain_name k'
      else forallb plain_name k
  end.

(** A store names every entry once, by the components of its path. *)
Definition wf_store (st : store) : bool :=
  nodupb (map fst st) && forallb key_ok (map fst st).

Definition os_error (k : exn_class) (what path : str) : exn :=
  mk_exn k (what ++ lit ": '" ++ path ++ lit "'").

Definition enoent := os_error FileNotFoundError (lit "[Errno 2] No such file or directory").
Definition eacces := os_error PermissionError (lit "[Errno 13] Permission denied").
Definition eexist := os_error FileExistsError (lit "[Errno 17] File exists").
Definition enotdir := os_error NotADirectoryError (lit "[Errno 20] Not a directory").
Definition eisdir := os_error IsADirectoryError (lit "[Errno 21] Is a directory").

(** [os.path.exists(p)] *)
Definition path_exists (st : store) (p : str) : bool :=
  negb (str_eqb p []) && present st (resolve p).

(** [os.path.isfile(p)] *)
Definition path_isfile (st : store) (p : str) : bool :=
  negb (str_eqb p []) && is_file st (resolve p).

(** [os.listdir(p)] *)
Definition listdir (st : store) (p : str) : outcome (list str) :=
  if str_eqb p [] then Raise (enoent p)
  else if is_dir st (resolve p) then Ok (children st (resolve p))
  else if present st (resolve p) then Raise (enotdir p)
  else Raise (enoent p).

(** [os.unlink(p)] *)
Definition unlink (st : store) (p : str) : outcome store :=
  if str_eqb p [] then Raise (enoent p)
  else if is_base (resolve p) then Raise (eisdir p)
  else match lookup st (resolve p) with
       | Some (File _ false) => Ok (remove_at st (resolve p))
       | Some (File _ true) => Raise (eacces p)
       | Some Dir => Raise (eisdir p)
       | None => Raise (enoent p)
       end.

(** [open(p, "w")]: the file is created, or emptied when it exists. *)
Definition open_w (st : store) (p : str) : outcome store :=
  if str_eqb p [] then Raise (enoent p)
  else if is_dir st (resolve p) then Raise (eisdir p)
  else match lookup st (resolve p) with
       | Some _ => Ok (set_content st (resolve p) [])
       | None =>
           if is_dir st (removelast (resolve p))
           then Ok (st ++ [(resolve p, File [] false)])
           else if present st (removelast (resolve p)) then Raise (enotdir p)
           else Raise (enoent p)
       end.

(** [open(p, "r").read()]: what is in the file system under [p]. *)
Definition read_text (st : store) (p : str) : outcome str :=
  if str_eqb p [] then Raise (enoent p)
  else if is_dir st (resolve p) then Raise (eisdir p)
  else match lookup st (resolve p) with
       | Some (File c _) => Ok c
       | Some Dir => Raise (eisdir p)
       | None => Raise (enoent p)
       end.

(** The directories of [os.makedirs]: [todo] under [done], outermost first. *)
Fixpoint mkdirs (p : str) (st : store) (done : loc) (todo : list str) : outcome store :=
  match todo with
  | [] => Ok st
  | c :: todo' =>
      if is_dir st (done ++ [c]) then mkdirs p st (done ++ [c]) todo'
      else if present st (done ++ [c]) then Raise (enotdir p)
      else mkdirs p (st ++ [(done ++ [c], Dir)]) (done ++ [c]) todo'
  end.

(** [os.makedirs(p)] *)
Definition makedirs (st : store) (p : str) : outcome store :=
  if str_eqb p [] then Raise (enoent p)
  else if present st (resolve p) then Raise (eexist p)
  else mkdirs p st [] (resolve p).

(** ** The state of a run *)

(** What the script puts on the Streamlit page.  [Title] and [Status]
    stand for the two blocks of markup the script writes with
    [st.markdown]; [ProgressSet i total] is the progress bar set to
    [int((i / total) * 100)], a value computed in floating point and kept
    here by its operands. *)
Inductive element : Type :=
| Title
| TextInput (placeholder : str)
| Button (label : str)
| Checkbox (label : str)
| Markdown (body : str)
| Status (text : str)
| Spinner (text : str)
| ErrorBox (body : str)
| SuccessBox (body : str)
| WarningBox (body : str)
| ProgressBar
| ProgressSet (i total : nat)
| DownloadButton (label data file_name mime : str).

(** [buffers] holds, for each file open for writing, the text written to
    it so far: the text reaches the file system when the file is closed.
    (CPython writes a part earlier once about 8 KiB are pending.) *)
Record world : Type := mk_world {
  fs : store;
  buffers : list (loc * str);
  stdout : list str;
  page : list element
}.

Definition set_fs (w : world) (st : store) : world :=
  mk_world st (buffers w) (stdout w) (page w).

Definition set_buffers (w : world) (b : list (loc * str)) : world :=
  mk_world (fs w) b (stdout w) (page w).

(** A computation on the world that returns or raises. *)
Definition M (A : Type) : Type := world -> outcome A * world.

Definition ret (A : Type) (a : A) : M A := fun w => (Ok a, w).

Definition bind (A B : Type) (m : M A) (k : A -> M B) : M B :=
  fun w => match m w with
           | (Ok a, w') => k a w'
           | (Raise e, w') => (Raise e, w')
           end.

Definition raise (A : Type) (e : exn) : M A := fun w => (Raise e, w).

Arguments raise {A} e.

(** [try: body / except Exception as e: handler] *)
Definition try_except (A : Type) (body : M A) (handler : exn -> M A) : M A :=
  fun w => match body w with
           | (Ok a, w') => (Ok a, w')
           | (Raise e, w') => handler e w'
           end.

Declare Scope py_scope.
Delimit Scope py_scope with py.
Notation "x <- m ;; k" := (bind m (fun x => k))
  (at level 61, m at next level, right associativity) : py_scope.
Notation "m ;; k" := (bind m (fun _ => k))
  (at level 61, right associativity) : py_scope.
Local Open Scope py_scope.

(** [for x in xs: body x] *)
Fixpoint for_each (A : Type) (xs : list A) (body : A -> M unit) : M unit :=
  match xs with
  | [] => ret tt
  | x :: xs' => body x ;; for_each xs' body
  end.

(** [enumerate(xs, start)] *)
Fixpoint enumerate (A : Type) (start : nat) (xs : list A) : list (nat * A) :=
  match xs with
  | [] => []
  | x :: xs' => (start, x) :: enumerate (S start) xs'
  end.

(** The result of a collaborator, handed to the caller. *)
Definition lift (A : Type) (r : outcome A) : M A := fun w => (r, w).

Definition print (line : str) : M unit :=
  fun w => (Ok tt, mk_world (fs w) (buffers w) (stdout w ++ [line]) (page w)).

Definition show (e : element) : M unit :=
  fun w => (Ok tt, mk_world (fs w) (buffers w) (stdout w) (page w ++ [e])).

Definition os_path_exists (p : str) : M bool :=
  fun w => (Ok (path_exists (fs w) p), w).

Definition os_path_isfile (p : str) : M bool :=
  fun w => (Ok (path_isfile (fs w) p), w).

Definition os_listdir (p : str) : M (list str) :=
  fun w => (listdir (fs w) p, w).

Definition os_unlink (p : str) : M unit :=
  fun w => match unlink (fs w) p with
           | Ok st => (Ok tt, set_fs w st)
           | Raise e => (Raise e, w)
           end.

Definition os_makedirs (p : str) : M unit :=
  fun w => match makedirs (fs w) p with
           | Ok st => (Ok tt, set_fs w st)
           | Raise e => (Raise e, w)
           end.

(** [with open(p, "r") as f: f.read()] *)
Definition read_file (p : str) : M str :=
  fun w => (read_text (fs w) p, w).

Fixpoint buffer_of (b : list (loc * str)) (h : loc) : str :=
  match b with
  | [] => []
  | (k, text) :: b' => if loc_eqb k h then text else buffer_of b' h
  end.

Fixpoint buffer_append (b : list (loc * str)) (h : loc) (text : str) : list (loc * str) :=
  match b with
  | [] => []
  | (k, old) :: b' =>
      if loc_eqb k h then (k, old ++ text) :: b'
      else (k, old) :: buffer_append b' h text
  end.

Fixpoint buffer_drop (b : list (loc * str)) (h : loc) : list (loc * str) :=
  match b with
  | [] => []
  | (k, old) :: b' => if loc_eqb k h then b' else (k, old) :: buffer_drop b' h
  end.

(** [f.write(text)] on a file open for writing. *)
Definition f_write (f : loc) (text : str) : M unit :=
  fun w => (Ok tt, set_buffers w (buffer_append (buffers w) f text)).

(** Leaving the [with] block: the pending text becomes the file's content. *)
Definition close (f : loc) (w : world) : world :=
  mk_world (set_content (fs w) f (buffer_of (buffers w) f))
           (buffer_drop (buffers w) f) (stdout w) (page w).

(** [with open(p, "w") as f: body f].  The file is closed when the block
    is left, also when the block raises. *)
Definition with_open_w (A : Type) (p : str) (body : loc -> M A) : M A :=
  fun w => match open_w (fs w) p with
           | Raise e => (Raise e, w)
           | Ok st =>
               let f := resolve p in
               let (r, w') := body f (mk_world st ((f, []) :: buffers w)
                                               (stdout w) (page w)) in
               (r, close f w')
           end.

(** Truth value of a string: [if s:]. *)
Definition truthy (s : str) : bool :=
  match s with
  | [] => false
  | _ :: _ => true
  end.

(** ** The collaborators' data *)

(** A caption fragment of the transcript API; the script reads its
    ["text"] entry only. *)
Record caption : Type := mk_caption { text : str }.

(** A record of the channel scraper; the script reads its ["videoId"]
    entry only. *)
Record video : Type := mk_video { videoId : str }.

(** What iterating over the generator of [scrapetube.get_channel] gives:
    records one by one, until the listing ends or a request fails. *)
Inductive videos : Type :=
| Exhausted
| Broken (e : exn)
| Yield (v : video) (rest : videos).

(** What the user entered on the page when the script runs. *)
Record session : Type := mk_session {
  channel_url_input : str;
  final_file_input : str;
  download_clicked : bool;
  drive_checked : bool;
  upload_clicked : bool
}.

(** ** The functions of the script *)

Section Pipeline.

(** [\d] of the regular-expression engine. *)
Variable isdigit : char -> bool.

(** [YouTubeTranscriptApi.get_transcript] *)
Variable get_transcript : str -> outcome (list caption).

(** [scrapetube.get_channel] *)
Variable get_channel : str -> videos.

(** The Drive service asked to create the file: the ["id"] it answers
    with, if any.  Its token cache is not part of [fs]. *)
Variable drive_create : str -> str -> outcome (option str).

Definition get_transcript_text (video_id : str) : M str :=
  transcript <- lift (get_transcript video_id) ;;
  ret (join (lit " ") (map text transcript)).

Definition download_transcript (video_id output_dir : str) : M bool :=
  try_except
    (transcript <- get_transcript_text video_id ;;
     if truthy transcript then
       let cleaned_text := remove_timestamps isdigit transcript in
       with_open_w (os_path_join output_dir (video_id ++ lit ".txt"))
         (fun file => f_write file cleaned_text) ;;
       ret true
     else
       print (lit "No English transcript found for video ID " ++ video_id) ;;
       ret false)
    (fun e =>
       print (lit "Failed to download transcript for video ID " ++ video_id
                ++ lit ": " ++ exn_str e) ;;
       ret false).

Definition concatenate_transcripts (output_dir final_file : str) : M unit :=
  with_open_w final_file (fun f_out =>
    names <- os_listdir output_dir ;;
    for_each names (fun filename =>
      if endswith (lit ".txt") filename then
        content <- read_file (os_path_join output_dir filename) ;;
        f_write f_out (content ++ [NL; NL])
      else ret tt)).

(** The list comprehension of [get_all_video_ids], run on the generator. *)
Fixpoint video_ids_of (vs : videos) : outcome (list str) :=
  match vs with
  | Exhausted => Ok []
  | Broken e => Raise e
  | Yield v rest =>
      match video_ids_of rest with
      | Ok ids => Ok (videoId v :: ids)
      | Raise e => Raise e
      end
  end.

Definition get_all_video_ids (channel_url : str) : M (list str) :=
  lift (video_ids_of (get_channel channel_url)).

Definition clear_transcript_folder (folder_path : str) : M unit :=
  there <- os_path_exists folder_path ;;
  if there then
    names <- os_listdir folder_path ;;
    for_each names (fun filename =>
      let file_path := os_path_join folder_path filename in
      try_except
        (regular <- os_path_isfile file_path ;;
         if regular then os_unlink file_path else ret tt)
        (fun e => show (ErrorBox (lit "Error deleting " ++ filename
                                    ++ lit ": " ++ exn_str e)))) ;;
    show (SuccessBox (lit "All transcript files cleared!"))
  else
    show (WarningBox (lit "Transcript folder does not exist")).

Definition upload_to_drive (file_path folder_id : str) : M (option str) :=
  try_except
    (lift (drive_create file_path folder_id))
    (fun e =>
       show (ErrorBox (lit "Error uploading to Google Drive: " ++ exn_str e)) ;;
       ret None).

(** [i / total_videos], as far as it can raise. *)
Definition progress_of (i total : nat) : M element :=
  match total with
  | O => raise (mk_exn ZeroDivisionError (lit "division by zero"))
  | S _ => ret (ProgressSet i total)
  end.

Definition folder_id : str := lit "1QpJxFsWU6INW0aLQdDrHVZ9qZ6QQf0zw".

Definition main (inp : session) : M unit :=
  show Title ;;
  show (TextInput (lit "youtube.com/@channel")) ;;
  let channel_url := channel_url_input inp in
  let output_dir := lit "transcripts" in
  show (TextInput (lit "Name new file")) ;;
  let final_file := final_file_input inp in
  show (Button (lit "Download")) ;;
  if download_clicked inp then
    if negb (truthy channel_url) then
      show (ErrorBox (lit "Please enter a channel URL"))
    else
      let final_file :=
        if negb (truthy final_file) then lit "combined_transcripts.txt"
        else final_file ++ lit ".txt" in
      there <- os_path_exists output_dir ;;
      (if negb there then os_makedirs output_dir else ret tt) ;;
      clear_transcript_folder output_dir ;;
      show (Spinner (lit "Fetching video list...")) ;;
      video_ids <- get_all_video_ids channel_url ;;
      let total_videos := List.length video_ids in
      show (Status (lit "Found " ++ str_of_nat total_videos
                      ++ lit " videos to process")) ;;
      show ProgressBar ;;
      for_each (enumerate 1 video_ids) (fun '(i, video_id) =>
        progress <- progress_of i total_videos ;;
        show progress ;;
        show (Status (lit "Processing video " ++ str_of_nat i ++ lit " of "
                        ++ str_of_nat total_videos)) ;;
        _ <- download_transcript video_id output_dir ;;
        ret tt) ;;
      show (Status (lit "Combining transcripts...")) ;;
      concatenate_transcripts output_dir final_file ;;
      show (SuccessBox (10024%N :: lit " All transcripts combined into "
                          ++ final_file)) ;;
      data <- read_file final_file ;;
      show (DownloadButton (lit "Download Combined Transcript") data
              final_file (lit "text/plain")) ;;
      show (Checkbox (lit "Upload to Google Drive")) ;;
      if drive_checked inp then
        show (Button (lit "Upload to YouTube Transcripts Folder")) ;;
        if upload_clicked inp then
          there <- os_path_exists final_file ;;
          if there then
            show (Spinner (lit "Uploading to Google Drive...")) ;;
            file_id <- upload_to_drive final_file folder_id ;;
            match file_id with
            | Some (c :: id) =>
                show (SuccessBox (9989%N :: lit " File uploaded successfully to YouTube Transcripts folder!")) ;;
                show (Markdown (lit "[View file in Google Drive](https://drive.google.com/file/d/"
                                  ++ (c :: id) ++ lit "/view)"))
            | _ => ret tt
            end
          else ret tt
        else ret tt
      else ret tt
  else ret tt.

End Pipeline.

(** ** Notions of the specification *)

Section Notions.

Variable isdigit : char -> bool.

(** [HH:MM:SS,mmm], each letter a digit. *)
Definition is_clock (t : str) : Prop :=
  exists h1 h2 m1 m2 s1 s2 f1 f2 f3,
    Forall (fun c => isdigit c = true) [h1; h2; m1; m2; s1; s2; f1; f2; f3]
    /\ t = [h1; h2] ++ lit ":" ++ [m1; m2] ++ lit ":" ++ [s1; s2]
             ++ lit "," ++ [f1; f2; f3].

(** [HH:MM:SS,mmm --> HH:MM:SS,mmm] *)
Definition is_timestamp (t : str) : Prop :=
  exists a b, is_clock a /\ is_clock b /\ t = a ++ lit " --> " ++ b.

Definition begins_with_timestamp (line : str) : Prop :=
  exists t rest, is_timestamp t /\ line = t ++ rest.

(** [kept] is [lines] with every line that begins with a timestamp
    removed, the others in their order. *)
Inductive without_timestamps : list str -> list str -> Prop :=
| wt_nil : without_timestamps [] []
| wt_drop line lines kept :
    begins_with_timestamp line ->
    without_timestamps lines kept ->
    without_timestamps (line :: lines) kept
| wt_keep line lines kept :
    ~ begins_with_timestamp line ->
    without_timestamps lines kept ->
    without_timestamps (line :: lines) (line :: kept).

End Notions.

(** [xs] is [ys] with some elements left out. *)
Inductive subsequence (A : Type) : list A -> list A -> Prop :=
| sub_nil : subsequence [] []
| sub_skip y xs ys : subsequence xs ys -> subsequence xs (y :: ys)
| sub_take x xs ys : subsequence xs ys -> subsequence (x :: xs) (x :: ys).

(** [s] has no line break. *)
Definition one_line (s : str) : Prop := ~ In NL s.

(** The generator that gives [records] and then goes on as [tail]. *)
Fixpoint yields (records : list video) (tail : videos) : videos :=
  match records with
  | [] => tail
  | v :: records' => Yield v (yields records' tail)
  end.

(** [with open(p, "w") as f: f.write(c)], on the file system alone. *)
Definition write_text (st : store) (p c : str) : outcome store :=
  match open_w st p with
  | Ok st' => Ok (set_content st' (resolve p) c)
  | Raise e => Raise e
  end.

(** The content of the regular file at [l]. *)
Definition content_at (st : store) (l : loc) : str :=
  match lookup st l with
  | Some (File c _) => c
  | _ => []
  end.

(** Carriage return. *)
Definition CR : char := 13%N.

(** A text that reading in text mode returns as it is stored: it has no
    carriage return, which reading would give as a line break. *)
Definition read_as_stored (c : str) : bool := negb (existsb (N.eqb CR) c).

Definition unpinned_file (n : option node) : bool :=
  match n with
  | Some (File _ false) => true
  | _ => false
  end.

Definition pinned_file (n : option node) : bool :=
  match n with
  | Some (File _ true) => true
  | _ => false
  end.

(** The names in directory [p] that end in [.txt], as listed. *)
Definition txt_names (st : store) (p : str) : list str :=
  filter (endswith (lit ".txt")) (children st (resolve p)).

(** Each [.txt] file of [p] followed by two line breaks, as listed. *)
Definition combined (st : store) (p : str) : str :=
  List.concat (map (fun n => content_at st (resolve p ++ [n]) ++ [NL; NL])
              (txt_names st p)).

(** [part] occurs in [whole] as a run of consecutive characters. *)
Definition substring (part whole : str) : Prop :=
  exists before after, whole = before ++ part ++ after.

(** The message [clear_transcript_folder] shows for a file it could not
    delete. *)
Definition deletion_error (folder_path filename : str) : element :=
  ErrorBox (lit "Error deleting " ++ filename ++ lit ": "
              ++ exn_str (eacces (os_path_join folder_path filename))).

(** [l] is an entry named in [names] of directory [d] and a regular file
    that can be unlinked. *)
Definition gone (st : store) (d : loc) (names : list str) (l : loc) : bool :=
  existsb (fun n => loc_eqb (d ++ [n]) l) names && unpinned_file (lookup st l).

(** The messages for the pinned files among [names], in order. *)
Definition deletion_errors (st : store) (folder_path : str) (names : list str) : list element :=
  flat_map (fun n => if pinned_file (lookup st (resolve folder_path ++ [n]))
                     then [deletion_error folder_path n]
                     else []) names.

Definition is_child (d l : loc) : bool :=
  match child_name d l with
  | Some _ => true
  | None => false
  end.

(** The name of the combined file, from what the user entered. *)
Definition final_file_name (entered : str) : str :=
  if negb (truthy entered) then lit "combined_transcripts.txt"
  else entered ++ lit ".txt".

(** The folder of the per-video files. *)
Definition transcripts_folder : loc := resolve (lit "transcripts").

(** ** Sample data *)

Definition sample_timestamp : str := lit "00:00:01,000 --> 00:00:02,500".

(** A transcript API that knows the video [a1] only. *)
Definition sample_api (video_id : str) : outcome (list caption) :=
  if str_eqb video_id (lit "a1")
  then Ok [mk_caption (lit "hello"); mk_caption (lit "world")]
  else Raise (mk_exn TranscriptsDisabled (lit "Subtitles are disabled for this video")).

(** A transcripts folder with two transcripts and a sub-folder. *)
Definition sample_store : store :=
  [ ([lit "transcripts"], Dir);
    ([lit "transcripts"; lit "a1.txt"], File (lit "hello") false);
    ([lit "transcripts"; lit "notes"], Dir);
    ([lit "transcripts"; lit "a2.txt"], File (lit "world") false) ].

(** The same folder when the second transcript cannot be unlinked. *)
Definition pinned_store : store :=
  [ ([lit "transcripts"], Dir);
    ([lit "transcripts"; lit "a1.txt"], File (lit "hello") false);
    ([lit "transcripts"; lit "notes"], Dir);
    ([lit "transcripts"; lit "a2.txt"], File (lit "world") true) ].

(** A folder that holds one transcript of an earlier run. *)
Definition leftover_store (pinned : bool) : store :=
  [ ([lit "transcripts"], Dir);
    ([lit "transcripts"; lit "old.txt"], File (lit "stale") pinned) ].

Definition world_of (st : store) : world := mk_world st [] [] [].

(** The user asks for the transcripts of a channel and names no file. *)
Definition sample_session : session :=
  mk_session (lit "youtube.com/@channel") [] true false false.

(** A channel without videos. *)
Definition empty_channel (channel_url : str) : videos := Exhausted.

(** A Drive service that is never reached in the samples. *)
Definition no_drive (file_path folder : str) : outcome (option str) := Ok None.

(** A channel with the videos [a1] and [a2]. *)
Definition two_videos (channel_url : str) : videos :=
  Yield (mk_video (lit "a1")) (Yield (mk_video (lit "a2")) Exhausted).

(** ** Further notions and sample data *)

(** The cleaned transcript of a video, when the API gives a transcript
    that is not empty. *)
Definition cleaned_transcript
    (isdigit : char -> bool) (get_transcript : str -> outcome (list caption))
    (video_id : str) : option str :=
  match get_transcript video_id with
  | Ok fragments =>
      if truthy (join (lit " ") (map text fragments))
      then Some (remove_timestamps isdigit (join (lit " ") (map text fragments)))
      else None
  | Raise _ => None
  end.

(** A path written as the names of its components, with one separator
    between two of them and at most one in front: no empty component, no
    [.] and no [..].  The operating system finds what such a path names
    by going down from the root or the working directory name by name,
    which is how [resolve] reads it. *)
Definition normal_path (p : str) : bool :=
  str_eqb p ROOT
  || forallb plain_name (split SEP (if startswith [SEP] p then tl p else p)).

(** The text that goes into the file of a video: its cleaned transcript. *)
Definition transcript_text
    (isdigit : char -> bool) (get_transcript : str -> outcome (list caption))
    (video_id : str) : str :=
  match cleaned_transcript isdigit get_transcript video_id with
  | Some c => c
  | None => []
  end.

(** The file system [st] when the videos [done] have been gone through,
    the folder having been cleared in [st0]: the [.txt] entries of the
    folder are the files of the videos of [done] that have a transcript,
    each holding its cleaned transcript; nothing outside the folder has
    changed and no directory is gone. *)
Definition downloaded
    (isdigit : char -> bool) (get_transcript : str -> outcome (list caption))
    (done : list str) (st0 st : store) : Prop :=
  wf_store st = true
  /\ is_dir st transcripts_folder = true
  /\ (forall n node,
         endswith (lit ".txt") n = true ->
         lookup st (transcripts_folder ++ [n]) = Some node ->
         exists video_id c pin,
           n = video_id ++ lit ".txt" /\ In video_id done
           /\ cleaned_transcript isdigit get_transcript video_id = Some c
           /\ node = File c pin)
  /\ (forall video_id c,
         In video_id done ->
         cleaned_transcript isdigit get_transcript video_id = Some c ->
         exists pin,
           lookup st (transcripts_folder ++ [video_id ++ lit ".txt"]) = Some (File c pin))
  /\ (forall l, is_child transcripts_folder l = false -> lookup st l = lookup st0 l)
  /\ (forall l, is_dir st0 l = true -> is_dir st l = true).

(** A transcript API whose transcripts are one timestamp line. *)
Definition timestamp_api (video_id : str) : outcome (list caption) :=
  Ok [mk_caption sample_timestamp].

(** A transcripts folder in which an entry named [*.txt] is a folder. *)
Definition folder_entry_store : store :=
  [ ([lit "transcripts"], Dir);
    ([lit "transcripts"; lit "a1.txt"], File (lit "hello") false);
    ([lit "transcripts"; lit "b.txt"], Dir);
    ([lit "transcripts"; lit "a2.txt"], File (lit "world") false) ].

(** A channel whose listing fails after the first video. *)
Definition broken_channel (channel_url : str) : videos :=
  Yield (mk_video (lit "a1")) (Broken (mk_exn TooManyRequests (lit "429"))).

(** A regular file in the place of the transcripts folder. *)
Definition file_for_folder_store : store :=
  [ ([lit "transcripts"], File (lit "hello") false) ].

(** The user presses Download without a channel URL. *)
Definition idle_session : session := mk_session [] [] true false false.

(** What [download_transcript] prints for a video that it skips: nothing
    when the video has a transcript. *)
Definition skip_lines (get_transcript : str -> outcome (list caption)) (video_id : str)
    : list str :=
  match get_transcript video_id with
  | Ok fragments =>
      if truthy (join (lit " ") (map text fragments)) then []
      else [lit "No English transcript found for video ID " ++ video_id]
  | Raise e =>
      [lit "Failed to download transcript for video ID " ++ video_id
         ++ lit ": " ++ exn_str e]
  end.

(** * Properties *)

(** ** Strings *)

Lemma list_eqb_eq (A : Type) (eqb : A -> A -> bool) :
  (forall x y, eqb x y = true <-> x = y) ->
  forall a b, list_eqb eqb a b = true <-> a = b.
Proof.
  intros Heq a. induction a as [|x a IH]; intros [|y b]; simpl;
    try (split; [discriminate | congruence]); try tauto.
  rewrite andb_true_iff, Heq, IH. split.
  - intros [-> ->]. reflexivity.
  - intros E. injection E. auto.
Qed.

Lemma str_eqb_eq (a b : str) : str_eqb a b = true <-> a = b.
Proof. apply list_eqb_eq. intros x y. apply N.eqb_eq. Qed.

Lemma str_eqb_refl (a : str) : str_eqb a a = true.
Proof. apply str_eqb_eq. reflexivity. Qed.

Lemma str_eqb_neq (a b : str) : str_eqb a b = false <-> a <> b.
Proof.
  rewrite <- str_eqb_eq. destruct (str_eqb a b); split; congruence.
Qed.

Lemma loc_eqb_eq (a b : loc) : loc_eqb a b = true <-> a = b.
Proof. apply list_eqb_eq. apply str_eqb_eq. Qed.

Lemma loc_eqb_refl (a : loc) : loc_eqb a a = true.
Proof. apply loc_eqb_eq. reflexivity. Qed.

Lemma loc_eqb_neq (a b : loc) : loc_eqb a b = false <-> a <> b.
Proof.
  rewrite <- loc_eqb_eq. destruct (loc_eqb a b); split; congruence.
Qed.

Lemma loc_eqb_sym (a b : loc) : loc_eqb a b = loc_eqb b a.
Proof.
  destruct (loc_eqb b a) eqn:E.
  - apply loc_eqb_eq in E. subst. apply loc_eqb_refl.
  - apply loc_eqb_neq. apply loc_eqb_neq in E. congruence.
Qed.

Lemma split_not_nil (sep : char) (s : str) : split sep s <> [].
Proof.
  destruct s as [|c s]; simpl; [discriminate|].
  destruct (N.eqb c sep); [discriminate|].
  destruct (split sep s); discriminate.
Qed.

Lemma split_length (sep : char) (s : str) : 1 <= List.length (split sep s).
Proof.
  pose proof (split_not_nil sep s). destruct (split sep s); simpl; [congruence | lia].
Qed.

Lemma split_fields (sep : char) (s : str) :
  Forall (fun field => ~ In sep field) (split sep s).
Proof.
  induction s as [|c s IH]; simpl.
  - constructor; auto.
  - destruct (N.eqb c sep) eqn:E.
    + constructor; auto.
    + apply N.eqb_neq in E.
      destruct (split sep s) as [|f fs].
      * constructor; [|constructor]. simpl. intros [H|[]]. congruence.
      * inversion IH; subst. constructor; auto.
        simpl. intros [H|H]; [congruence | auto].
Qed.

Lemma split_one_field (sep : char) (s : str) :
  ~ In sep s -> split sep s = [s].
Proof.
  induction s as [|c s IH]; simpl; intros H; [reflexivity|].
  destruct (N.eqb c sep) eqn:E.
  - apply N.eqb_eq in E. subst. tauto.
  - rewrite IH by tauto. reflexivity.
Qed.

Lemma split_app (sep : char) (a b : str) :
  split sep (a ++ sep :: b) = split sep a ++ split sep b.
Proof.
  induction a as [|c a IH]; simpl.
  - rewrite N.eqb_refl. reflexivity.
  - destruct (N.eqb c sep); [rewrite IH; reflexivity|].
    rewrite IH. pose proof (split_not_nil sep a).
    destruct (split sep a); [congruence | reflexivity].
Qed.

Lemma join_cons (sep p : str) (ps : list str) :
  ps <> [] -> join sep (p :: ps) = p ++ sep ++ join sep ps.
Proof. destruct ps; [congruence | reflexivity]. Qed.

(** Joining the fields back gives the string that was split. *)
Lemma join_split (sep : char) (s : str) : join [sep] (split sep s) = s.
Proof.
  induction s as [|c s IH]; [reflexivity|].
  simpl split. destruct (N.eqb c sep) eqn:E.
  - apply N.eqb_eq in E. subst.
    rewrite join_cons by apply split_not_nil. rewrite IH. reflexivity.
  - pose proof (split_not_nil sep s).
    destruct (split sep s) as [|f fs]; [congruence|].
    destruct fs as [|g fs].
    + simpl in *. congruence.
    + rewrite join_cons by discriminate.
      rewrite join_cons in IH by discriminate.
      rewrite <- IH at 1. reflexivity.
Qed.

(** Splitting what was joined gives the fields back, when there is at
    least one and none holds the separator. *)
Lemma split_join (sep : char) (fields : list str) :
  fields <> [] ->
  Forall (fun field => ~ In sep field) fields ->
  split sep (join [sep] fields) = fields.
Proof.
  induction fields as [|f fs IH]; intros Hne Hall; [congruence|].
  inversion Hall; subst.
  destruct fs as [|g fs].
  - simpl. apply split_one_field. assumption.
  - rewrite join_cons by discriminate.
    cbn [app].
    rewrite split_app, IH by (discriminate || assumption).
    rewrite split_one_field by assumption. reflexivity.
Qed.

Lemma subsequence_filter (A : Type) (keep : A -> bool) (xs : list A) :
  subsequence (filter keep xs) xs.
Proof.
  induction xs as [|x xs IH]; simpl; [constructor|].
  destruct (keep x); constructor; assumption.
Qed.

Lemma filter_all (A : Type) (keep : A -> bool) (xs : list A) :
  Forall (fun x => keep x = true) xs -> filter keep xs = xs.
Proof.
  induction 1 as [|x xs Hx _ IH]; simpl; [reflexivity|].
  rewrite Hx, IH. reflexivity.
Qed.

Lemma filter_kept (A : Type) (keep : A -> bool) (xs : list A) :
  Forall (fun x => keep x = true) (filter keep xs).
Proof.
  induction xs as [|x xs IH]; simpl; [constructor|].
  destruct (keep x) eqn:E; [constructor|]; assumption.
Qed.

Lemma Forall_filter (A : Type) (P : A -> Prop) (keep : A -> bool) (xs : list A) :
  Forall P xs -> Forall P (filter keep xs).
Proof.
  induction 1 as [|x xs Hx _ IH]; simpl; [constructor|].
  destruct (keep x); [constructor|]; assumption.
Qed.

(** ** The timestamp pattern *)

Section CleaningFacts.

Variable isdigit : char -> bool.

Local Abbreviation accepts := (accepted isdigit) (only parsing).
Local Abbreviation keep := (fun line => negb (is_timestamp_line isdigit line)) (only parsing).

(** Reads a match against a pattern given atom by atom. *)
Ltac invert_match :=
  repeat match goal with
         | H : Forall2 _ (_ :: _) _ |- _ => inversion H; subst; clear H
         | H : Forall2 _ [] _ |- _ => inversion H; subst; clear H
         | H : accepted _ (Chr _) _ |- _ => apply N.eqb_eq in H; subst
         | H : accepted _ Digit _ |- _ => unfold accepted, atom_accepts in H
         end.

(** A match is a prefix of the string, accepted atom by atom. *)
Lemma re_match_prefix (r : regex) (s : str) :
  re_match isdigit r s = true <->
  exists t rest, s = t ++ rest /\ Forall2 accepts r t.
Proof.
  revert s. induction r as [|a r IH]; intros s; simpl.
  - split; [|reflexivity]. intros _. exists [], s. split; [reflexivity | constructor].
  - destruct s as [|c s].
    + split; [discriminate|]. intros (t & rest & E & F).
      inversion F; subst. discriminate.
    + rewrite andb_true_iff, IH. split.
      * intros (Hc & t & rest & -> & F).
        exists (c :: t), rest. split; [reflexivity | constructor; assumption].
      * intros (t & rest & E & F). inversion F; subst.
        injection E as -> ->. split; [assumption|]. eauto.
Qed.

Lemma clock_shape (t : str) :
  is_clock isdigit t <-> Forall2 accepts clock_re t.
Proof.
  split.
  - intros (h1 & h2 & m1 & m2 & s1 & s2 & f1 & f2 & f3 & D & ->).
    repeat match goal with
           | H : Forall _ (_ :: _) |- _ => inversion H; subst; clear H
           end.
    repeat constructor; assumption.
  - intros F. let r := eval cbv in clock_re in change clock_re with r in F.
    invert_match.
    do 9 eexists. split; [|reflexivity].
    repeat constructor; assumption.
Qed.

Lemma arrow_shape (t : str) :
  Forall2 accepts (chars (lit " --> ")) t <-> t = lit " --> ".
Proof.
  split.
  - intros F. let r := eval cbv in (chars (lit " --> ")) in
    change (chars (lit " --> ")) with r in F.
    invert_match.
    reflexivity.
  - intros ->. repeat constructor.
Qed.

Lemma timestamp_shape (t : str) :
  is_timestamp isdigit t <-> Forall2 accepts timestamp_pattern t.
Proof.
  unfold timestamp_pattern. split.
  - intros (a & b & Ha & Hb & ->).
    apply Forall2_app; [apply clock_shape; assumption|].
    apply Forall2_app; [apply arrow_shape; reflexivity|].
    apply clock_shape; assumption.
  - intros F.
    apply Forall2_app_inv_l in F. destruct F as (a & t' & Fa & F & ->).
    apply Forall2_app_inv_l in F. destruct F as (m & b & Fm & Fb & ->).
    apply arrow_shape in Fm. subst m.
    exists a, b. repeat split; try apply clock_shape; assumption.
Qed.

(** The test of the list comprehension holds of a line exactly when
    the line begins with a timestamp. *)
Lemma is_timestamp_line_iff (line : str) :
  is_timestamp_line isdigit line = true <-> begins_with_timestamp isdigit line.
Proof.
  unfold is_timestamp_line, begins_with_timestamp.
  rewrite re_match_prefix. split.
  - intros (t & rest & -> & F). exists t, rest.
    split; [apply timestamp_shape; assumption | reflexivity].
  - intros (t & rest & T & ->). exists t, rest.
    split; [reflexivity | apply timestamp_shape; assumption].
Qed.

Lemma keep_iff (line : str) :
  keep line = true <-> ~ begins_with_timestamp isdigit line.
Proof.
  rewrite <- is_timestamp_line_iff.
  destruct (is_timestamp_line isdigit line); simpl; split; congruence.
Qed.

Lemma empty_line_kept : keep [] = true.
Proof. reflexivity. Qed.

Lemma filtered_lines_one_line (s : str) :
  Forall one_line (filtered_lines isdigit s).
Proof. apply Forall_filter. apply split_fields. Qed.

(** On a text given by its lines, [remove_timestamps] filters the lines. *)
Lemma remove_timestamps_lines (lines : list str) :
  lines <> [] ->
  Forall one_line lines ->
  remove_timestamps isdigit (join [NL] lines) = join [NL] (filter keep lines).
Proof.
  intros Hne Hall. unfold remove_timestamps, filtered_lines.
  rewrite split_join by assumption. reflexivity.
Qed.

(** The lines of the result are the lines kept, or the single empty
    line when none is kept. *)
Lemma lines_of_result (s : str) :
  split NL (remove_timestamps isdigit s) =
  match filtered_lines isdigit s with
  | [] => [[]]
  | kept => kept
  end.
Proof.
  unfold remove_timestamps.
  pose proof (filtered_lines_one_line s) as H.
  destruct (filtered_lines isdigit s) as [|l ls] eqn:E; [reflexivity|].
  apply split_join; [discriminate | assumption].
Qed.

Lemma filter_without (lines : list str) :
  without_timestamps isdigit lines (filter keep lines).
Proof.
  induction lines as [|l ls IH]; simpl; [constructor|].
  destruct (is_timestamp_line isdigit l) eqn:E; simpl.
  - apply wt_drop; [apply is_timestamp_line_iff|]; assumption.
  - apply wt_keep; [|assumption]. apply keep_iff. simpl. rewrite E. reflexivity.
Qed.

Lemma without_filter (lines kept : list str) :
  without_timestamps isdigit lines kept -> kept = filter keep lines.
Proof.
  induction 1 as [|l ls ks Hb _ IH|l ls ks Hb _ IH]; simpl.
  - reflexivity.
  - apply is_timestamp_line_iff in Hb. rewrite Hb. assumption.
  - apply keep_iff in Hb. simpl in Hb. rewrite Hb. congruence.
Qed.

End CleaningFacts.

(** ** Cleaning a transcript *)

Section CleaningProperties.

Variable isdigit : char -> bool.

Local Abbreviation keep := (fun line => negb (is_timestamp_line isdigit line)) (only parsing).

Lemma kept_not_timestamp (s : str) :
  Forall (fun line => is_timestamp_line isdigit line = false) (filtered_lines isdigit s).
Proof.
  pose proof (filter_kept keep (split NL s)) as H.
  unfold filtered_lines. eapply Forall_impl; [|exact H].
  intros line Hl. simpl in Hl. destruct (is_timestamp_line isdigit line); [discriminate | reflexivity].
Qed.

(** C3.  [remove_timestamps] filters the lines of its input: the result is
    the lines kept joined by line breaks; the lines kept are lines of the
    input in their order, exactly those the pattern does not match; no
    line of the result matches the pattern; and the result has at most as
    many lines as the input. *)
Theorem remove_timestamps_filter (s : str) :
  remove_timestamps isdigit s = join [NL] (filtered_lines isdigit s)
  /\ subsequence (filtered_lines isdigit s) (split NL s)
  /\ (forall line, In line (filtered_lines isdigit s) <->
                   In line (split NL s) /\ is_timestamp_line isdigit line = false)
  /\ split NL (remove_timestamps isdigit s)
     = match filtered_lines isdigit s with [] => [[]] | kept => kept end
  /\ Forall (fun line => is_timestamp_line isdigit line = false)
            (split NL (remove_timestamps isdigit s))
  /\ List.length (split NL (remove_timestamps isdigit s)) <= List.length (split NL s).
Proof.
  split; [reflexivity|].
  split; [apply subsequence_filter|].
  split.
  { intros line. unfold filtered_lines. rewrite filter_In.
    destruct (is_timestamp_line isdigit line); simpl; intuition congruence. }
  split; [apply lines_of_result|].
  rewrite lines_of_result.
  pose proof (kept_not_timestamp s) as Hk.
  destruct (filtered_lines isdigit s) as [|l ls] eqn:E.
  - split; [repeat constructor | apply split_length].
  - split; [assumption|].
    rewrite <- E. unfold filtered_lines. apply filter_length_le.
Qed.

(** C4.  Cleaning a cleaned text changes nothing. *)
Theorem remove_timestamps_idempotent (s : str) :
  remove_timestamps isdigit (remove_timestamps isdigit s) = remove_timestamps isdigit s.
Proof.
  unfold remove_timestamps at 1. unfold filtered_lines at 1.
  rewrite lines_of_result. unfold remove_timestamps.
  pose proof (kept_not_timestamp s) as Hk.
  destruct (filtered_lines isdigit s) as [|l ls] eqn:E; [reflexivity|].
  rewrite filter_all; [reflexivity|].
  eapply Forall_impl; [|exact Hk]. intros line Hl. simpl. rewrite Hl. reflexivity.
Qed.

Lemma timestamp_line_extra (t extra : str) :
  is_timestamp isdigit t -> is_timestamp_line isdigit (t ++ extra) = true.
Proof.
  intros T. apply is_timestamp_line_iff. exists t, extra. split; [assumption | reflexivity].
Qed.

Lemma timestamp_starts_with_digit (c : char) (rest : str) :
  begins_with_timestamp isdigit (c :: rest) -> isdigit c = true.
Proof.
  intros (t & r & (a & b & (h1 & h2 & m1 & m2 & s1 & s2 & f1 & f2 & f3 & D & ->) & _ & ->) & E).
  injection E as -> _. inversion D. assumption.
Qed.

(** C10.  A line is removed exactly when it begins with a timestamp: the
    pattern is matched at the start of the line and nothing is asked of
    what follows.  So a timestamp followed by any text on its line is
    removed, and a line that has other characters first is kept, whatever
    comes after them. *)
Theorem removed_iff_begins_with_timestamp :
  (forall text line,
      In line (split NL text) ->
      (~ In line (filtered_lines isdigit text) <-> begins_with_timestamp isdigit line))
  /\ (forall before after t extra,
         Forall one_line before -> Forall one_line after -> one_line (t ++ extra) ->
         is_timestamp isdigit t ->
         remove_timestamps isdigit (join [NL] (before ++ (t ++ extra) :: after))
         = join [NL] (filter keep before ++ filter keep after))
  /\ (forall before after c lead t rest,
         Forall one_line before -> Forall one_line after ->
         one_line (c :: lead ++ t ++ rest) ->
         isdigit c = false -> is_timestamp isdigit t ->
         remove_timestamps isdigit (join [NL] (before ++ (c :: lead ++ t ++ rest) :: after))
         = join [NL] (filter keep before ++ (c :: lead ++ t ++ rest) :: filter keep after)).
Proof.
  split; [|split].
  - intros text line Hin. unfold filtered_lines. rewrite filter_In.
    rewrite <- is_timestamp_line_iff.
    destruct (is_timestamp_line isdigit line); simpl; intuition congruence.
  - intros before after t extra Hb Ha Hl T.
    rewrite remove_timestamps_lines.
    + rewrite filter_app. simpl. rewrite timestamp_line_extra by assumption. reflexivity.
    + destruct before; discriminate.
    + apply Forall_app. split; [assumption | constructor; assumption].
  - intros before after c lead t rest Hb Ha Hl Hc T.
    rewrite remove_timestamps_lines.
    + rewrite filter_app. simpl.
      destruct (is_timestamp_line isdigit (c :: lead ++ t ++ rest)) eqn:E; [|reflexivity].
      apply is_timestamp_line_iff, timestamp_starts_with_digit in E. congruence.
    + destruct before; discriminate.
    + apply Forall_app. split; [assumption | constructor; assumption].
Qed.

(** C2.  When the transcript API returns [fragments], fetching and then
    cleaning gives the texts of the fragments joined by single spaces,
    without the lines that begin with a timestamp. *)
Theorem fetch_and_clean_spec
    (get_transcript : str -> outcome (list caption))
    (video_id : str) (fragments : list caption) (w : world) :
  get_transcript video_id = Ok fragments ->
  exists kept,
    (transcript <- get_transcript_text get_transcript video_id ;;
     ret (remove_timestamps isdigit transcript))%py w
    = (Ok (join [NL] kept), w)
    /\ without_timestamps isdigit
         (split NL (join (lit " ") (map text fragments))) kept.
Proof.
  intros Hf.
  exists (filtered_lines isdigit (join (lit " ") (map text fragments))).
  split; [|apply filter_without].
  unfold get_transcript_text, bind, lift, ret. rewrite Hf. reflexivity.
Qed.

End CleaningProperties.

Lemma sample_is_timestamp : is_timestamp ascii_digit sample_timestamp.
Proof.
  exists (lit "00:00:01,000"), (lit "00:00:02,500").
  repeat split; try reflexivity;
    do 9 eexists; (split; [|reflexivity]); repeat constructor.
Qed.

Lemma sample_one_line (s : string) :
  forallb (fun c => negb (N.eqb c NL)) (lit s) = true -> one_line (lit s).
Proof.
  intros H Hin. rewrite forallb_forall in H. apply H in Hin.
  rewrite N.eqb_refl in Hin. discriminate.
Qed.

Lemma remove_timestamps_filter_witness :
  remove_timestamps ascii_digit (lit "hello" ++ NL :: sample_timestamp ++ NL :: lit "world")
  = lit "hello" ++ NL :: lit "world".
Proof.
  rewrite (proj1 (remove_timestamps_filter ascii_digit _)). reflexivity.
Defined.

Lemma remove_timestamps_idempotent_witness :
  remove_timestamps ascii_digit (remove_timestamps ascii_digit sample_timestamp) = [].
Proof.
  rewrite (remove_timestamps_idempotent ascii_digit sample_timestamp). reflexivity.
Defined.

Lemma removed_iff_begins_with_timestamp_witness :
  remove_timestamps ascii_digit
    (join [NL] ([lit "hello"] ++ (sample_timestamp ++ lit " trailing") :: [lit "world"]))
  = lit "hello" ++ NL :: lit "world"
  /\ remove_timestamps ascii_digit
       (join [NL] ([] ++ (32%N :: [] ++ sample_timestamp ++ []) :: []))
     = 32%N :: sample_timestamp.
Proof.
  split.
  - etransitivity.
    + apply (proj1 (proj2 (removed_iff_begins_with_timestamp ascii_digit))).
      * repeat constructor; apply (sample_one_line "hello"); reflexivity.
      * repeat constructor; apply (sample_one_line "world"); reflexivity.
      * apply (sample_one_line "00:00:01,000 --> 00:00:02,500 trailing"). reflexivity.
      * exact sample_is_timestamp.
    + reflexivity.
  - etransitivity.
    + apply (proj2 (proj2 (removed_iff_begins_with_timestamp ascii_digit))).
      * constructor.
      * constructor.
      * apply (sample_one_line " 00:00:01,000 --> 00:00:02,500"). reflexivity.
      * reflexivity.
      * exact sample_is_timestamp.
    + reflexivity.
Defined.

Lemma fetch_and_clean_spec_witness :
  exists kept,
    (transcript <- get_transcript_text sample_api (lit "a1") ;;
     ret (remove_timestamps ascii_digit transcript))%py (mk_world [] [] [] [])
    = (Ok (join [NL] kept), mk_world [] [] [] [])
    /\ without_timestamps ascii_digit
         (split NL (join (lit " ") (map text [mk_caption (lit "hello"); mk_caption (lit "world")])))
         kept.
Proof.
  apply (fetch_and_clean_spec ascii_digit sample_api (lit "a1")). reflexivity.
Defined.

(** ** Paths *)

Lemma startswith_sep (s : str) :
  startswith [SEP] s = true <-> exists s', s = SEP :: s'.
Proof.
  destruct s as [|c s]; cbn [startswith].
  - split; [discriminate | intros (s' & E); discriminate].
  - rewrite andb_true_r, N.eqb_eq. split.
    + intros <-. eauto.
    + intros (s' & E). congruence.
Qed.

Lemma endswith_sep (s : str) :
  endswith [SEP] s = true <-> exists s', s = s' ++ [SEP].
Proof.
  unfold endswith. simpl rev. rewrite startswith_sep. split.
  - intros (r & E). exists (rev r).
    rewrite <- (rev_involutive s), E. reflexivity.
  - intros (s' & ->). exists (rev s'). rewrite rev_app_distr. reflexivity.
Qed.

Lemma plain_name_facts (n : str) :
  plain_name n = true ->
  n <> [] /\ n <> [DOT] /\ n <> [DOT; DOT] /\ ~ In SEP n.
Proof.
  unfold plain_name. rewrite !andb_true_iff, !negb_true_iff, !str_eqb_neq.
  intros [[[H1 H2] H3] H4]. repeat split; try assumption.
  intros Hin. rewrite forallb_forall in H4. apply H4 in Hin.
  rewrite N.eqb_refl in Hin. discriminate.
Qed.

Lemma push_plain (stack : list str) (n : str) :
  plain_name n = true -> push_component stack n = n :: stack.
Proof.
  intros H. apply plain_name_facts in H. destruct H as (H1 & H2 & H3 & _).
  unfold push_component.
  apply str_eqb_neq in H1, H2, H3. rewrite H1, H2, H3. reflexivity.
Qed.

Lemma fold_left_snoc (A B : Type) (f : A -> B -> A) (xs : list B) (x : B) (a : A) :
  fold_left f (xs ++ [x]) a = f (fold_left f xs a) x.
Proof. rewrite fold_left_app. reflexivity. Qed.

Lemma resolve_plain (n : str) : plain_name n = true -> resolve n = [n].
Proof.
  intros H. pose proof (plain_name_facts n H) as (H1 & _ & _ & H4).
  unfold resolve. rewrite split_one_field by assumption.
  destruct (startswith [SEP] n) eqn:E.
  - apply startswith_sep in E. destruct E as (s' & ->). simpl in H4. tauto.
  - simpl. rewrite push_plain by assumption. reflexivity.
Qed.

(** The path of an entry of a directory resolves to that entry. *)
Lemma resolve_join (d n : str) :
  plain_name n = true -> resolve (os_path_join d n) = resolve d ++ [n].
Proof.
  intros H. pose proof (plain_name_facts n H) as (H1 & _ & _ & H4).
  unfold os_path_join.
  destruct (startswith [SEP] n) eqn:E.
  { apply startswith_sep in E. destruct E as (s' & ->). simpl in H4. tauto. }
  destruct (str_eqb d []) eqn:Ed; simpl orb.
  { apply str_eqb_eq in Ed. subst d. simpl app. rewrite resolve_plain by assumption.
    reflexivity. }
  apply str_eqb_neq in Ed.
  destruct (endswith [SEP] d) eqn:Es.
  - apply endswith_sep in Es. destruct Es as (d' & ->).
    unfold resolve. rewrite <- app_assoc. simpl app.
    rewrite !split_app. rewrite (@split_one_field SEP n H4). simpl (split SEP []).
    rewrite !fold_left_snoc.
    replace (startswith [SEP] (d' ++ SEP :: n)) with (startswith [SEP] (d' ++ [SEP]))
      by (destruct d'; reflexivity).
    rewrite push_plain by assumption. simpl rev.
    unfold push_component at 2. simpl. reflexivity.
  - unfold resolve. simpl app. rewrite split_app, (@split_one_field SEP n H4).
    rewrite fold_left_snoc.
    replace (startswith [SEP] (d ++ SEP :: n)) with (startswith [SEP] d)
      by (destruct d; [congruence | reflexivity]).
    rewrite push_plain by assumption. reflexivity.
Qed.

Lemma join_not_empty (d n : str) : n <> [] -> os_path_join d n <> [].
Proof.
  intros Hn. unfold os_path_join.
  destruct (startswith [SEP] n); [assumption|].
  destruct (str_eqb d [] || endswith [SEP] d).
  - destruct d; [assumption | discriminate].
  - destruct d; discriminate.
Qed.

Lemma child_not_base (d : loc) (n : str) :
  plain_name n = true -> is_base (d ++ [n]) = false.
Proof.
  intros H. apply plain_name_facts in H. destruct H as (_ & _ & _ & H4).
  unfold is_base. apply orb_false_iff. split; apply loc_eqb_neq.
  - destruct d; discriminate.
  - destruct d as [|a [|b d]]; try discriminate.
    intros E. injection E as ->. apply H4. left. reflexivity.
Qed.

(** ** The file system *)

Lemma child_name_spec (d k : loc) (n : str) :
  child_name d k = Some n <-> k = d ++ [n].
Proof.
  revert k. induction d as [|a d IH]; intros k; simpl.
  - destruct k as [|b [|c k]]; split; intros E; try discriminate; congruence.
  - destruct k as [|b k]; [split; discriminate|].
    destruct (str_eqb a b) eqn:E.
    + apply str_eqb_eq in E. subst b. rewrite IH. split; congruence.
    + apply str_eqb_neq in E. split; [discriminate | congruence].
Qed.

Lemma child_name_child (d : loc) (n : str) : child_name d (d ++ [n]) = Some n.
Proof. apply child_name_spec. reflexivity. Qed.

Lemma lookup_in (st : store) (l : loc) (n : node) :
  lookup st l = Some n -> In (l, n) st.
Proof.
  induction st as [|[k m] st IH]; simpl; [discriminate|].
  destruct (loc_eqb k l) eqn:E.
  - apply loc_eqb_eq in E. intros [= ->]. left. congruence.
  - auto.
Qed.

Lemma lookup_none (st : store) (l : loc) :
  lookup st l = None <-> ~ In l (map fst st).
Proof.
  induction st as [|[k m] st IH]; simpl; [tauto|].
  destruct (loc_eqb k l) eqn:E.
  - apply loc_eqb_eq in E. split; [discriminate | tauto].
  - apply loc_eqb_neq in E. rewrite IH. tauto.
Qed.

Lemma lookup_app (st st2 : store) (l : loc) :
  lookup (st ++ st2) l =
  match lookup st l with
  | Some n => Some n
  | None => lookup st2 l
  end.
Proof.
  induction st as [|[k m] st IH]; simpl; [reflexivity|].
  destruct (loc_eqb k l); [reflexivity | assumption].
Qed.

Lemma lookup_remove_at (st : store) (l l' : loc) :
  lookup (remove_at st l) l' = if loc_eqb l l' then None else lookup st l'.
Proof.
  induction st as [|[k m] st IH]; simpl.
  - destruct (loc_eqb l l'); reflexivity.
  - destruct (loc_eqb k l) eqn:E; simpl.
    + apply loc_eqb_eq in E. subst k. rewrite IH.
      destruct (loc_eqb l l'); reflexivity.
    + rewrite IH. destruct (loc_eqb k l') eqn:E'; [|reflexivity].
      apply loc_eqb_eq in E'. subst k. rewrite loc_eqb_sym, E. reflexivity.
Qed.

Lemma lookup_set_content (st : store) (l l' : loc) (c : str) :
  lookup (set_content st l c) l' =
  if loc_eqb l l'
  then match lookup st l with
       | Some (File _ pin) => Some (File c pin)
       | other => other
       end
  else lookup st l'.
Proof.
  induction st as [|[k m] st IH]; simpl.
  - destruct (loc_eqb l l'); reflexivity.
  - destruct (loc_eqb k l) eqn:E.
    + apply loc_eqb_eq in E. subst k.
      destruct (loc_eqb l l') eqn:E'.
      * destruct m; simpl; rewrite ?E'; reflexivity.
      * destruct m; simpl; rewrite ?E'; rewrite ?IH, ?E'; reflexivity.
    + simpl. destruct (loc_eqb k l') eqn:E'.
      * apply loc_eqb_eq in E'. subst k. rewrite loc_eqb_sym, E. reflexivity.
      * rewrite IH. reflexivity.
Qed.

Lemma keys_set_content (st : store) (l : loc) (c : str) :
  map fst (set_content st l c) = map fst st.
Proof.
  unfold set_content. rewrite map_map. apply map_ext.
  intros [k m]. simpl. destruct (loc_eqb k l); [destruct m|]; reflexivity.
Qed.

Lemma children_keys (st st' : store) (d : loc) :
  map fst st = map fst st' -> children st d = children st' d.
Proof.
  revert st'. induction st as [|[k m] st IH]; intros [|[k' m'] st']; simpl;
    try discriminate; [reflexivity|].
  intros E. injection E as -> E. rewrite (IH st' E). reflexivity.
Qed.

Lemma children_app (st st2 : store) (d : loc) :
  children (st ++ st2) d = children st d ++ children st2 d.
Proof. unfold children. apply flat_map_app. Qed.

Lemma children_in (st : store) (d : loc) (n : str) :
  In n (children st d) <-> In (d ++ [n]) (map fst st).
Proof.
  unfold children. rewrite in_flat_map, in_map_iff. split.
  - intros ([k m] & Hin & Hn). simpl in Hn.
    destruct (child_name d k) as [n'|] eqn:E; [|destruct Hn].
    destruct Hn as [->|[]]. apply child_name_spec in E. subst k.
    exists (d ++ [n], m). auto.
  - intros ([k m] & E & Hin). simpl in E. subst k.
    exists (d ++ [n], m). split; [assumption|].
    simpl. rewrite child_name_child. left. reflexivity.
Qed.

Lemma children_lookup (st : store) (d : loc) (n : str) :
  In n (children st d) <-> lookup st (d ++ [n]) <> None.
Proof.
  rewrite children_in, lookup_none.
  destruct (in_dec (list_eq_dec (list_eq_dec N.eq_dec)) (d ++ [n]) (map fst st)); tauto.
Qed.

Lemma nodupb_NoDup (ks : list loc) : nodupb ks = true -> NoDup ks.
Proof.
  induction ks as [|k ks IH]; simpl; intros H; constructor;
    apply andb_true_iff in H; destruct H as [H1 H2]; [|auto].
  intros Hin. apply negb_true_iff in H1.
  assert (existsb (loc_eqb k) ks = true); [|congruence].
  apply existsb_exists. exists k. split; [assumption | apply loc_eqb_refl].
Qed.

Lemma wf_store_keys (st : store) :
  wf_store st = true ->
  NoDup (map fst st) /\ Forall (fun k => key_ok k = true) (map fst st).
Proof.
  unfold wf_store. rewrite andb_true_iff. intros [H1 H2]. split.
  - apply nodupb_NoDup. assumption.
  - apply Forall_forall. apply forallb_forall. assumption.
Qed.

Lemma key_ok_last (d : loc) (n : str) :
  key_ok (d ++ [n]) = true -> plain_name n = true.
Proof.
  unfold key_ok. destruct d as [|a d]; simpl.
  - destruct (str_eqb n ROOT); simpl; [discriminate|].
    rewrite andb_true_r. auto.
  - destruct (str_eqb a ROOT).
    + rewrite andb_true_iff, forallb_app. simpl.
      rewrite !andb_true_iff. tauto.
    + rewrite andb_true_iff, forallb_app. simpl.
      rewrite !andb_true_iff. tauto.
Qed.

(** In a well-formed store the names a listing returns are entry names. *)
Lemma children_plain (st : store) (d : loc) (n : str) :
  wf_store st = true -> In n (children st d) -> plain_name n = true.
Proof.
  intros Hwf Hin. apply wf_store_keys in Hwf. destruct Hwf as [_ Hok].
  apply children_in in Hin. rewrite Forall_forall in Hok.
  apply key_ok_last with d. auto.
Qed.

(** In a well-formed store a listing returns no name twice. *)
Lemma children_NoDup (st : store) (d : loc) :
  wf_store st = true -> NoDup (children st d).
Proof.
  intros Hwf. apply wf_store_keys in Hwf. destruct Hwf as [Hnd _].
  induction st as [|[k m] st IH]; simpl; [constructor|].
  simpl in Hnd. inversion Hnd; subst.
  destruct (child_name d k) as [n|] eqn:E; simpl; [|auto].
  constructor; [|auto].
  apply child_name_spec in E. subst k.
  rewrite children_in. assumption.
Qed.

(** ** Writing a file *)

Lemma with_open_w_write (p c : str) (w : world) :
  with_open_w p (fun f => f_write f c) w =
  match write_text (fs w) p c with
  | Ok st => (Ok tt, set_fs w st)
  | Raise e => (Raise e, w)
  end.
Proof.
  unfold with_open_w, write_text.
  destruct (open_w (fs w) p) as [st|e]; [|reflexivity].
  unfold f_write, close, set_buffers, set_fs. simpl.
  rewrite !loc_eqb_refl. simpl. rewrite !loc_eqb_refl. reflexivity.
Qed.

Lemma open_w_spec (st st' : store) (p : str) :
  open_w st p = Ok st' ->
  (exists pin, lookup st' (resolve p) = Some (File [] pin))
  /\ (forall l, l <> resolve p -> lookup st' l = lookup st l)
  /\ (map fst st' = map fst st
      \/ map fst st' = map fst st ++ [resolve p] /\ lookup st (resolve p) = None).
Proof.
  unfold open_w. destruct (str_eqb p []); [discriminate|].
  unfold is_dir at 1.
  destruct (is_base (resolve p)); simpl; [discriminate|].
  destruct (lookup st (resolve p)) as [[c pin|]|] eqn:E; try discriminate.
  - intros [= <-]. split; [|split].
    + exists pin. rewrite lookup_set_content, loc_eqb_refl, E. reflexivity.
    + intros l Hl. rewrite lookup_set_content.
      apply not_eq_sym in Hl. apply loc_eqb_neq in Hl. rewrite Hl. reflexivity.
    + left. apply keys_set_content.
  - destruct (is_dir st (removelast (resolve p))).
    + intros [= <-]. split; [|split].
      * exists false. rewrite lookup_app, E. simpl. rewrite loc_eqb_refl. reflexivity.
      * intros l Hl. rewrite lookup_app. destruct (lookup st l); [reflexivity|].
        simpl. apply not_eq_sym in Hl. apply loc_eqb_neq in Hl. rewrite Hl. reflexivity.
      * right. rewrite map_app. auto.
    + destruct (present st (removelast (resolve p))); discriminate.
Qed.

(** A write puts the text in the file at the path and touches nothing
    else; the file is a new entry when the path named none. *)
Lemma write_text_spec (st st' : store) (p c : str) :
  write_text st p c = Ok st' ->
  (exists pin, lookup st' (resolve p) = Some (File c pin))
  /\ (forall l, l <> resolve p -> lookup st' l = lookup st l)
  /\ (map fst st' = map fst st
      \/ map fst st' = map fst st ++ [resolve p] /\ lookup st (resolve p) = None).
Proof.
  unfold write_text. destruct (open_w st p) as [st1|e] eqn:E; [|discriminate].
  intros [= <-]. apply open_w_spec in E. destruct E as ((pin & H1) & H2 & H3).
  split; [|split].
  - exists pin. rewrite lookup_set_content, loc_eqb_refl, H1. reflexivity.
  - intros l Hl. rewrite lookup_set_content.
    pose proof Hl as Hl'. apply not_eq_sym in Hl'. apply loc_eqb_neq in Hl'.
    rewrite Hl'. auto.
  - rewrite keys_set_content. assumption.
Qed.

(** ** Downloading one transcript *)

Section DownloadProperties.

Variable isdigit : char -> bool.
Variable get_transcript : str -> outcome (list caption).

Local Abbreviation download := (download_transcript isdigit get_transcript) (only parsing).

(** What [download_transcript] does, case by case. *)
Lemma download_transcript_cases (video_id output_dir : str) (w : world) :
  download video_id output_dir w =
  match get_transcript video_id with
  | Raise e =>
      (Ok false,
       mk_world (fs w) (buffers w)
         (stdout w ++ [lit "Failed to download transcript for video ID " ++ video_id
                         ++ lit ": " ++ exn_str e]) (page w))
  | Ok fragments =>
      let transcript := join (lit " ") (map text fragments) in
      if truthy transcript then
        match write_text (fs w) (os_path_join output_dir (video_id ++ lit ".txt"))
                (remove_timestamps isdigit transcript) with
        | Ok st => (Ok true, set_fs w st)
        | Raise e =>
            (Ok false,
             mk_world (fs w) (buffers w)
               (stdout w ++ [lit "Failed to download transcript for video ID " ++ video_id
                               ++ lit ": " ++ exn_str e]) (page w))
        end
      else
        (Ok false,
         mk_world (fs w) (buffers w)
           (stdout w ++ [lit "No English transcript found for video ID " ++ video_id])
           (page w))
  end.
Proof.
  unfold download_transcript, try_except, get_transcript_text, bind at 1 2, lift.
  destruct (get_transcript video_id) as [fragments|e]; [|reflexivity].
  unfold ret at 1. cbv zeta.
  destruct (truthy (join (lit " ") (map text fragments))); [|reflexivity].
  unfold bind. rewrite with_open_w_write.
  destruct (write_text (fs w) _ _); reflexivity.
Qed.

(** C5.  [download_transcript] never raises.  When the fetch raises, it
    logs the failure, returns [False] and leaves the file system as it
    was.  When it returns [True], the fetch had returned fragments and the
    one change to the file system is the file at
    [output_dir/<video_id>.txt], which holds the cleaned transcript; it
    does so whenever the fetched transcript is not empty and the file can
    be opened. *)
Theorem download_transcript_outcome (video_id output_dir : str) (w : world) :
  (exists b w', download video_id output_dir w = (Ok b, w'))
  /\ (forall e,
         get_transcript video_id = Raise e ->
         download video_id output_dir w
         = (Ok false,
            mk_world (fs w) (buffers w)
              (stdout w ++ [lit "Failed to download transcript for video ID " ++ video_id
                              ++ lit ": " ++ exn_str e]) (page w)))
  /\ (forall w',
         download video_id output_dir w = (Ok true, w') ->
         exists fragments pin,
           get_transcript video_id = Ok fragments
           /\ lookup (fs w') (resolve (os_path_join output_dir (video_id ++ lit ".txt")))
              = Some (File (remove_timestamps isdigit (join (lit " ") (map text fragments))) pin)
           /\ (forall l, l <> resolve (os_path_join output_dir (video_id ++ lit ".txt")) ->
                         lookup (fs w') l = lookup (fs w) l)
           /\ (map fst (fs w') = map fst (fs w)
               \/ map fst (fs w')
                  = map fst (fs w) ++ [resolve (os_path_join output_dir (video_id ++ lit ".txt"))])
           /\ stdout w' = stdout w /\ page w' = page w)
  /\ (forall fragments st,
         get_transcript video_id = Ok fragments ->
         truthy (join (lit " ") (map text fragments)) = true ->
         open_w (fs w) (os_path_join output_dir (video_id ++ lit ".txt")) = Ok st ->
         exists w', download video_id output_dir w = (Ok true, w'))
  /\ (plain_name (video_id ++ lit ".txt") = true ->
      resolve (os_path_join output_dir (video_id ++ lit ".txt"))
      = resolve output_dir ++ [video_id ++ lit ".txt"]).
Proof.
  rewrite download_transcript_cases.
  split; [|split; [|split; [|split]]].
  - destruct (get_transcript video_id) as [fragments|e]; [|eauto].
    cbv zeta. destruct (truthy _); [|eauto].
    destruct (write_text _ _ _); eauto.
  - intros e ->. reflexivity.
  - intros w'. destruct (get_transcript video_id) as [fragments|e]; [|discriminate].
    cbv zeta. destruct (truthy _); [|discriminate].
    destruct (write_text _ _ _) as [st|e] eqn:E; [|discriminate].
    intros [= <-]. apply write_text_spec in E. destruct E as ((pin & H1) & H2 & H3).
    exists fragments, pin. simpl. repeat split; try assumption.
    destruct H3 as [H3|[H3 _]]; auto.
  - intros fragments st -> Ht Ho. cbv zeta. rewrite Ht.
    unfold write_text. rewrite Ho. eauto.
  - apply resolve_join.
Qed.

(** C9.  A fetch that succeeds with fragments whose joined text is empty
    is skipped like a failed one: [download_transcript] logs that no
    transcript was found, returns [False] and writes no file. *)
Theorem empty_transcript_skipped
    (video_id output_dir : str) (fragments : list caption) (w : world) :
  get_transcript video_id = Ok fragments ->
  join (lit " ") (map text fragments) = [] ->
  download video_id output_dir w
  = (Ok false,
     mk_world (fs w) (buffers w)
       (stdout w ++ [lit "No English transcript found for video ID " ++ video_id])
       (page w)).
Proof.
  intros Hf He. rewrite download_transcript_cases, Hf. cbv zeta. rewrite He. reflexivity.
Qed.

End DownloadProperties.

(** ** Listing the videos of a channel *)

Lemma videos_shape (vs : videos) :
  exists records,
    vs = yields records Exhausted \/ exists e, vs = yields records (Broken e).
Proof.
  induction vs as [|e|v rest (records & IH)].
  - exists []. left. reflexivity.
  - exists []. right. exists e. reflexivity.
  - exists (v :: records). destruct IH as [->|(e & ->)]; [left | right; exists e]; reflexivity.
Qed.

Lemma video_ids_of_yields (records : list video) (tail : videos) :
  video_ids_of (yields records tail) =
  match video_ids_of tail with
  | Ok ids => Ok (map videoId records ++ ids)
  | Raise e => Raise e
  end.
Proof.
  induction records as [|v records IH]; simpl.
  - destruct (video_ids_of tail); reflexivity.
  - rewrite IH. destruct (video_ids_of tail); reflexivity.
Qed.

(** C8.  [get_all_video_ids] returns the [videoId] of every record the
    scraper yields, in the scraper's order; when the scraper raises,
    after any number of records, the exception reaches the caller and the
    state is left as it was.  The scraper does one or the other. *)
Theorem get_all_video_ids_outcome (get_channel : str -> videos) (channel_url : str) (w : world) :
  (forall records,
      get_channel channel_url = yields records Exhausted ->
      get_all_video_ids get_channel channel_url w = (Ok (map videoId records), w))
  /\ (forall records e,
         get_channel channel_url = yields records (Broken e) ->
         get_all_video_ids get_channel channel_url w = (Raise e, w))
  /\ (exists records,
         get_channel channel_url = yields records Exhausted
         \/ exists e, get_channel channel_url = yields records (Broken e)).
Proof.
  unfold get_all_video_ids, lift. split; [|split].
  - intros records ->. rewrite video_ids_of_yields. simpl. rewrite app_nil_r. reflexivity.
  - intros records e ->. rewrite video_ids_of_yields. reflexivity.
  - apply videos_shape.
Qed.

Lemma download_transcript_outcome_witness :
  exists w',
    download_transcript ascii_digit sample_api (lit "a1") (lit "transcripts")
      (mk_world [([lit "transcripts"], Dir)] [] [] [])
    = (Ok true, w').
Proof.
  refine (proj1 (proj2 (proj2 (proj2
            (download_transcript_outcome ascii_digit sample_api (lit "a1")
               (lit "transcripts") (mk_world [([lit "transcripts"], Dir)] [] [] [])))))
            _ _ _ _ _).
  - reflexivity.
  - reflexivity.
  - reflexivity.
Defined.

Lemma empty_transcript_skipped_witness :
  download_transcript ascii_digit (fun _ => Ok [mk_caption []]) (lit "a1") (lit "transcripts")
    (mk_world [([lit "transcripts"], Dir)] [] [] [])
  = (Ok false,
     mk_world [([lit "transcripts"], Dir)] [] [lit "No English transcript found for video ID a1"] []).
Proof.
  apply (empty_transcript_skipped ascii_digit (fun _ => Ok [mk_caption []])
           (lit "a1") (lit "transcripts") (mk_world [([lit "transcripts"], Dir)] [] [] [])
           (fragments := [mk_caption []])); reflexivity.
Defined.

Lemma get_all_video_ids_outcome_witness :
  get_all_video_ids
    (fun _ => yields [mk_video (lit "a1"); mk_video (lit "a2")] Exhausted)
    (lit "youtube.com/@channel") (mk_world [] [] [] [])
  = (Ok [lit "a1"; lit "a2"], mk_world [] [] [] []).
Proof.
  apply (proj1 (get_all_video_ids_outcome
                  (fun _ => yields [mk_video (lit "a1"); mk_video (lit "a2")] Exhausted)
                  (lit "youtube.com/@channel") (mk_world [] [] [] []))
           [mk_video (lit "a1"); mk_video (lit "a2")]).
  reflexivity.
Defined.

(** ** Clearing the transcript folder *)

(** One turn of the loop of [clear_transcript_folder]. *)
Lemma clear_step (folder_path filename : str) (w : world) :
  plain_name filename = true ->
  try_except
    (regular <- os_path_isfile (os_path_join folder_path filename) ;;
     if regular then os_unlink (os_path_join folder_path filename) else ret tt)
    (fun e => show (ErrorBox (lit "Error deleting " ++ filename
                                ++ lit ": " ++ exn_str e))) w
  = (Ok tt,
     match lookup (fs w) (resolve folder_path ++ [filename]) with
     | Some (File _ false) =>
         set_fs w (remove_at (fs w) (resolve folder_path ++ [filename]))
     | Some (File _ true) =>
         mk_world (fs w) (buffers w) (stdout w)
           (page w ++ [deletion_error folder_path filename])
     | _ => w
     end).
Proof.
  intros Hn.
  pose proof (plain_name_facts filename Hn) as (Hne & _).
  pose proof (join_not_empty folder_path Hne) as Hp. apply str_eqb_neq in Hp.
  unfold try_except, bind, os_path_isfile, os_unlink, path_isfile, unlink, is_file.
  rewrite Hp, resolve_join, child_not_base by assumption. simpl.
  destruct (lookup (fs w) (resolve folder_path ++ [filename])) as [[c [|]|]|] eqn:E;
    simpl; rewrite ?E; reflexivity.
Qed.

Lemma pinned_after_remove (st : store) (l l' : loc) :
  unpinned_file (lookup st l) = true ->
  pinned_file (lookup (remove_at st l) l') = pinned_file (lookup st l').
Proof.
  intros H. rewrite lookup_remove_at. destruct (loc_eqb l l') eqn:E; [|reflexivity].
  apply loc_eqb_eq in E. subst l'.
  destruct (lookup st l) as [[c [|]|]|]; simpl in *; congruence.
Qed.

Lemma deletion_errors_after_remove (st : store) (p : str) (l : loc) (names : list str) :
  unpinned_file (lookup st l) = true ->
  deletion_errors (remove_at st l) p names = deletion_errors st p names.
Proof.
  intros H. unfold deletion_errors. apply flat_map_ext. intros n.
  rewrite pinned_after_remove by assumption. reflexivity.
Qed.

(** The loop of [clear_transcript_folder] over [names]: it ends without
    raising, the files it could unlink are gone, the rest is as before,
    and each pinned file has its message. *)
Lemma clear_loop (folder_path : str) (names : list str) :
  Forall (fun n => plain_name n = true) names ->
  forall w,
  exists w',
    for_each names (fun filename =>
      try_except
        (regular <- os_path_isfile (os_path_join folder_path filename) ;;
         if regular then os_unlink (os_path_join folder_path filename) else ret tt)
        (fun e => show (ErrorBox (lit "Error deleting " ++ filename
                                    ++ lit ": " ++ exn_str e)))) w
    = (Ok tt, w')
    /\ (forall l, lookup (fs w') l =
                  if gone (fs w) (resolve folder_path) names l then None
                  else lookup (fs w) l)
    /\ page w' = page w ++ deletion_errors (fs w) folder_path names
    /\ stdout w' = stdout w
    /\ buffers w' = buffers w.
Proof.
  induction 1 as [|n names Hn _ IH]; intros w.
  - exists w. simpl. rewrite app_nil_r. repeat split; reflexivity.
  - cbn [for_each]. unfold bind at 1. rewrite clear_step by assumption.
    set (L := resolve folder_path ++ [n]).
    destruct (lookup (fs w) L) as [[c [|]|]|] eqn:E.
    + (* a pinned file *)
      destruct (IH (mk_world (fs w) (buffers w) (stdout w)
                      (page w ++ [deletion_error folder_path n])))
        as (w' & Hrun & Hfs & Hpage & Hout & Hbuf).
      exists w'. simpl in *. repeat split; try assumption.
      * intros l. rewrite Hfs. unfold gone. simpl. fold L.
        destruct (loc_eqb L l) eqn:El; [|reflexivity].
        apply loc_eqb_eq in El. subst l. rewrite E. simpl.
        rewrite andb_false_r. reflexivity.
      * rewrite Hpage. unfold deletion_errors at 2. simpl. fold L. rewrite E. simpl.
        rewrite <- app_assoc. reflexivity.
    + (* a file that is unlinked *)
      destruct (IH (set_fs w (remove_at (fs w) L)))
        as (w' & Hrun & Hfs & Hpage & Hout & Hbuf).
      exists w'. simpl in *. repeat split; try assumption.
      * intros l. rewrite Hfs. unfold gone. simpl. fold L.
        rewrite lookup_remove_at.
        destruct (loc_eqb L l) eqn:El.
        -- apply loc_eqb_eq in El. subst l. rewrite E. simpl.
           rewrite andb_false_r. reflexivity.
        -- reflexivity.
      * rewrite Hpage, deletion_errors_after_remove by (rewrite E; reflexivity).
        unfold deletion_errors at 2. simpl. fold L. rewrite E. reflexivity.
    + (* a directory *)
      destruct (IH w) as (w' & Hrun & Hfs & Hpage & Hout & Hbuf).
      exists w'. repeat split; try assumption.
      * intros l. rewrite Hfs. unfold gone. simpl. fold L.
        destruct (loc_eqb L l) eqn:El; [|reflexivity].
        apply loc_eqb_eq in El. subst l. rewrite E. simpl.
        rewrite !andb_false_r. reflexivity.
      * rewrite Hpage. unfold deletion_errors at 2. simpl. fold L. rewrite E. reflexivity.
    + (* no entry *)
      destruct (IH w) as (w' & Hrun & Hfs & Hpage & Hout & Hbuf).
      exists w'. repeat split; try assumption.
      * intros l. rewrite Hfs. unfold gone. simpl. fold L.
        destruct (loc_eqb L l) eqn:El; [|reflexivity].
        apply loc_eqb_eq in El. subst l. rewrite E. simpl.
        rewrite !andb_false_r. reflexivity.
      * rewrite Hpage. unfold deletion_errors at 2. simpl. fold L. rewrite E. reflexivity.
Qed.

Lemma existsb_child (st : store) (d l : loc) :
  lookup st l <> None ->
  existsb (fun n => loc_eqb (d ++ [n]) l) (children st d) = is_child d l.
Proof.
  intros Hl. unfold is_child.
  destruct (child_name d l) as [n|] eqn:E.
  - apply child_name_spec in E. subst l.
    apply existsb_exists. exists n. split; [|apply loc_eqb_refl].
    apply children_lookup. assumption.
  - destruct (existsb _ _) eqn:Ex; [|reflexivity].
    apply existsb_exists in Ex. destruct Ex as (n & _ & En).
    apply loc_eqb_eq in En. subst l. rewrite child_name_child in E. discriminate.
Qed.

Lemma gone_children (st : store) (d l : loc) :
  gone st d (children st d) l = is_child d l && unpinned_file (lookup st l).
Proof.
  unfold gone. destruct (lookup st l) as [m|] eqn:E.
  - rewrite existsb_child by congruence. reflexivity.
  - simpl. rewrite !andb_false_r. reflexivity.
Qed.

Lemma deletion_errors_none (st : store) (p : str) (names : list str) :
  (forall n, pinned_file (lookup st (resolve p ++ [n])) = false) ->
  deletion_errors st p names = [].
Proof.
  intros H. unfold deletion_errors.
  induction names as [|n names IH]; simpl; [reflexivity|].
  rewrite H, IH. reflexivity.
Qed.

Lemma path_exists_dir (st : store) (p : str) :
  p <> [] -> is_dir st (resolve p) = true -> path_exists st p = true.
Proof.
  intros Hp Hd. unfold path_exists, present. unfold is_dir in Hd.
  apply str_eqb_neq in Hp. rewrite Hp. simpl.
  destruct (is_base (resolve p)); [reflexivity|].
  simpl in *. destruct (lookup st (resolve p)) as [[|]|]; congruence.
Qed.

Lemma listdir_dir (st : store) (p : str) :
  p <> [] -> is_dir st (resolve p) = true -> listdir st p = Ok (children st (resolve p)).
Proof.
  intros Hp Hd. unfold listdir. apply str_eqb_neq in Hp. rewrite Hp, Hd. reflexivity.
Qed.

(** A run of [clear_transcript_folder] on a folder that exists. *)
Lemma clear_transcript_folder_run (folder_path : str) (w : world) :
  wf_store (fs w) = true ->
  folder_path <> [] ->
  is_dir (fs w) (resolve folder_path) = true ->
  exists w',
    clear_transcript_folder folder_path w = (Ok tt, w')
    /\ (forall l, lookup (fs w') l =
                  if is_child (resolve folder_path) l && unpinned_file (lookup (fs w) l)
                  then None else lookup (fs w) l)
    /\ page w' = page w
                 ++ deletion_errors (fs w) folder_path (children (fs w) (resolve folder_path))
                 ++ [SuccessBox (lit "All transcript files cleared!")]
    /\ stdout w' = stdout w
    /\ buffers w' = buffers w.
Proof.
  intros Hwf Hp Hd.
  destruct (clear_loop folder_path
              (names := children (fs w) (resolve folder_path))) with (w := w)
    as (w1 & Hrun & Hfs & Hpage & Hout & Hbuf).
  { apply Forall_forall. intros n Hn. eapply children_plain; eassumption. }
  exists (mk_world (fs w1) (buffers w1) (stdout w1)
            (page w1 ++ [SuccessBox (lit "All transcript files cleared!")])).
  split; [|split; [|split; [|split]]].
  - unfold clear_transcript_folder, bind at 1, os_path_exists.
    rewrite path_exists_dir by assumption.
    unfold bind at 1. unfold bind at 1, os_listdir.
    rewrite listdir_dir by assumption.
    rewrite Hrun. reflexivity.
  - intros l. cbn [fs]. rewrite Hfs, gone_children. reflexivity.
  - cbn [page]. rewrite Hpage, <- app_assoc. reflexivity.
  - assumption.
  - assumption.
Qed.

(** C6.  On a folder that exists, [clear_transcript_folder] does not
    raise.  Every regular file directly inside the folder that can be
    unlinked is deleted, whatever their number, and nothing else changes;
    each file whose deletion fails is reported, and the files listed
    after it are deleted all the same.  When no deletion fails, no
    regular file is left directly inside the folder and no error is
    shown. *)
Theorem clear_transcript_folder_outcome
    (folder_path : str) (w : world) :
  wf_store (fs w) = true ->
  folder_path <> [] ->
  is_dir (fs w) (resolve folder_path) = true ->
  exists w',
    clear_transcript_folder folder_path w = (Ok tt, w')
    /\ (forall l, lookup (fs w') l =
                  if is_child (resolve folder_path) l && unpinned_file (lookup (fs w) l)
                  then None else lookup (fs w) l)
    /\ page w' = page w
                 ++ deletion_errors (fs w) folder_path (children (fs w) (resolve folder_path))
                 ++ [SuccessBox (lit "All transcript files cleared!")]
    /\ ((forall l, is_child (resolve folder_path) l = true ->
                   pinned_file (lookup (fs w) l) = false) ->
        (forall n, is_file (fs w') (resolve folder_path ++ [n]) = false)
        /\ page w' = page w ++ [SuccessBox (lit "All transcript files cleared!")]).
Proof.
  intros Hwf Hp Hd.
  destruct (@clear_transcript_folder_run folder_path w Hwf Hp Hd)
    as (w' & Hrun & Hlook & Hpage & _).
  exists w'. split; [assumption|]. split; [assumption|]. split; [assumption|].
  intros Hall. split.
  - intros n. unfold is_file. rewrite Hlook.
    rewrite andb_false_iff. right.
    unfold is_child. rewrite child_name_child. simpl.
    specialize (Hall (resolve folder_path ++ [n])).
    unfold is_child in Hall. rewrite child_name_child in Hall.
    specialize (Hall eq_refl).
    destruct (lookup (fs w) (resolve folder_path ++ [n])) as [[c [|]|]|];
      simpl in *; congruence.
  - rewrite Hpage, deletion_errors_none; [reflexivity|].
    intros n. apply Hall. unfold is_child. rewrite child_name_child. reflexivity.
Qed.

(** ** Combining the transcripts *)

Lemma buffer_append_top (b : list (loc * str)) (f : loc) (old text : str) :
  buffer_append ((f, old) :: b) f text = (f, old ++ text) :: b.
Proof. simpl. rewrite loc_eqb_refl. reflexivity. Qed.

(** The loop of [concatenate_transcripts] over [names], the combined file
    being open with [sofar] written to it: the [.txt] files are read and
    added in order. *)
Lemma concatenate_loop (output_dir : str) (f : loc) (names : list str) :
  forall (st : store) (b : list (loc * str)) (out : list str) (pg : list element) (sofar : str),
  Forall (fun n => endswith (lit ".txt") n = true ->
                   read_text st (os_path_join output_dir n)
                   = Ok (content_at st (resolve output_dir ++ [n]))) names ->
  for_each names (fun filename =>
    if endswith (lit ".txt") filename then
      content <- read_file (os_path_join output_dir filename) ;;
      f_write f (content ++ [NL; NL])
    else ret tt) (mk_world st ((f, sofar) :: b) out pg)
  = (Ok tt,
     mk_world st
       ((f, sofar ++ List.concat
                       (map (fun n => content_at st (resolve output_dir ++ [n]) ++ [NL; NL])
                            (filter (endswith (lit ".txt")) names))) :: b)
       out pg).
Proof.
  induction names as [|n names IH]; intros st b out pg sofar Hall.
  - simpl. rewrite app_nil_r. reflexivity.
  - inversion Hall as [|? ? Hn Hrest]; subst.
    cbn [for_each filter]. unfold bind at 1.
    destruct (endswith (lit ".txt") n) eqn:E.
    + unfold bind at 1, read_file. cbn [fs]. rewrite (Hn eq_refl).
      unfold f_write, set_buffers. cbn [fs buffers stdout page].
      rewrite buffer_append_top, IH by assumption.
      cbn [map List.concat]. rewrite <- !app_assoc. reflexivity.
    + unfold ret at 1. apply IH. assumption.
Qed.

Lemma open_w_not_dir (st st' : store) (p : str) :
  open_w st p = Ok st' -> p <> [] /\ is_dir st (resolve p) = false.
Proof.
  unfold open_w. destruct (str_eqb p []) eqn:E; [discriminate|].
  apply str_eqb_neq in E. destruct (is_dir st (resolve p)); [discriminate|]. auto.
Qed.

Lemma open_w_keeps_dirs (st st' : store) (p : str) (d : loc) :
  open_w st p = Ok st' -> is_dir st d = true -> is_dir st' d = true.
Proof.
  intros Ho Hd. pose proof (@open_w_not_dir _ _ _ Ho) as [_ Hf].
  apply open_w_spec in Ho. destruct Ho as (_ & Hsame & _).
  unfold is_dir in *. rewrite Hsame; [assumption|].
  intros ->. congruence.
Qed.

(** Opening a file for writing adds no name that ends in [.txt] to the
    listing of [d], unless the file is such an entry of [d]. *)
Lemma open_w_txt_names (st st' : store) (p : str) (d : loc) :
  open_w st p = Ok st' ->
  (forall n, endswith (lit ".txt") n = true -> resolve p <> d ++ [n]) ->
  filter (endswith (lit ".txt")) (children st' d)
  = filter (endswith (lit ".txt")) (children st d).
Proof.
  intros Ho Hout. apply open_w_spec in Ho. destruct Ho as (_ & _ & [Hk|[Hk _]]).
  - rewrite (children_keys st' st d Hk). reflexivity.
  - assert (E : children st' d = children (st ++ [(resolve p, Dir)]) d).
    { apply children_keys. rewrite Hk, map_app. reflexivity. }
    rewrite E, children_app, filter_app. cbn [children flat_map fst].
    destruct (child_name d (resolve p)) as [n|] eqn:En; cbn [app filter].
    + apply child_name_spec in En.
      destruct (endswith (lit ".txt") n) eqn:Et.
      * exfalso. eapply Hout; eassumption.
      * apply app_nil_r.
    + apply app_nil_r.
Qed.

Lemma read_text_file (st : store) (d : loc) (p n : str) :
  plain_name n = true ->
  d = resolve p ->
  is_file st (d ++ [n]) = true ->
  read_text st (os_path_join p n) = Ok (content_at st (d ++ [n])).
Proof.
  intros Hn -> Hf. unfold read_text, content_at.
  pose proof (plain_name_facts n Hn) as (Hne & _).
  pose proof (join_not_empty p Hne) as Hp. apply str_eqb_neq in Hp.
  rewrite Hp, resolve_join by assumption.
  unfold is_file in Hf. unfold is_dir.
  rewrite child_not_base in * by assumption. simpl in *.
  destruct (lookup st (resolve p ++ [n])) as [[c pin|]|]; try discriminate. reflexivity.
Qed.

(** A run of [concatenate_transcripts] whose combined file is not one of
    the [.txt] entries of the folder. *)
Lemma concatenate_run
    (output_dir final_file : str) (w : world) (st1 : store) :
  output_dir <> [] ->
  is_dir (fs w) (resolve output_dir) = true ->
  open_w (fs w) final_file = Ok st1 ->
  (forall n, endswith (lit ".txt") n = true ->
             resolve final_file <> resolve output_dir ++ [n]) ->
  Forall (fun n => plain_name n = true
                   /\ is_file (fs w) (resolve output_dir ++ [n]) = true)
         (txt_names (fs w) output_dir) ->
  concatenate_transcripts output_dir final_file w
  = (Ok tt,
     mk_world (set_content st1 (resolve final_file) (combined (fs w) output_dir))
       (buffers w) (stdout w) (page w)).
Proof.
  intros Hp Hd Ho Hout Hfiles.
  assert (Hsame : forall n, endswith (lit ".txt") n = true ->
                    lookup st1 (resolve output_dir ++ [n])
                    = lookup (fs w) (resolve output_dir ++ [n])).
  { intros n Hn. apply (@open_w_spec _ _ _ Ho). apply not_eq_sym. auto. }
  unfold concatenate_transcripts, with_open_w. rewrite Ho.
  unfold bind at 1, os_listdir. cbn [fs].
  rewrite listdir_dir by (try assumption; eapply open_w_keeps_dirs; eassumption).
  rewrite concatenate_loop.
  - unfold close. cbn [fs buffers stdout page buffer_of buffer_drop].
    rewrite loc_eqb_refl. cbn [app].
    rewrite (@open_w_txt_names _ _ _ _ Ho Hout).
    unfold combined, txt_names.
    match goal with
    | |- (_, mk_world (set_content _ _ ?a) _ _ _) = (_, mk_world (set_content _ _ ?b) _ _ _) =>
        replace a with b; [reflexivity|]
    end.
    apply f_equal, map_ext_in. intros n Hn. apply filter_In in Hn. destruct Hn as [_ Hn].
    unfold content_at. rewrite Hsame by assumption. reflexivity.
  - apply Forall_forall. intros n Hin Hn.
    assert (Htxt : In n (txt_names (fs w) output_dir)).
    { unfold txt_names. rewrite <- (@open_w_txt_names _ _ _ _ Ho Hout).
      apply filter_In. auto. }
    rewrite Forall_forall in Hfiles. destruct (Hfiles n Htxt) as [Hpl Hf].
    apply read_text_file; [assumption | reflexivity |].
    unfold is_file in *. rewrite Hsame; assumption.
Qed.

Lemma concat_join (sep : str) (parts : list str) :
  parts <> [] ->
  List.concat (map (fun part => part ++ sep) parts) = join sep parts ++ sep.
Proof.
  induction parts as [|part parts IH]; intros Hne; [congruence|].
  destruct parts as [|part' parts].
  - simpl. rewrite app_nil_r. reflexivity.
  - rewrite join_cons by discriminate. cbn [map List.concat] in *.
    rewrite IH by discriminate. rewrite <- !app_assoc. reflexivity.
Qed.

Lemma concat_substring (A : Type) (block : A -> str) (xs : list A) (x : A) :
  In x xs -> substring (block x) (List.concat (map block xs)).
Proof.
  intros Hin. apply in_split in Hin. destruct Hin as (l1 & l2 & ->).
  exists (List.concat (map block l1)), (List.concat (map block l2)).
  rewrite map_app, concat_app. reflexivity.
Qed.

(** C1, as amended.  Let the folder be a directory of a well-formed file
    system in which every entry named [*.txt] is a regular file whose
    text has no carriage return, and let the combined file be a path
    that can be opened for writing and is not itself an entry [*.txt] of
    the folder.  Then
    [concatenate_transcripts] does not raise; afterwards the combined
    file holds, whatever it held before, the content of each [.txt] file
    of the folder followed by two line breaks, in listing order and once
    per file; so each content is a part of it and the contents are
    separated by exactly two line breaks.  No other file changes. *)
Theorem concatenate_transcripts_outcome
    (output_dir final_file : str) (w : world) (st1 : store) :
  wf_store (fs w) = true ->
  output_dir <> [] ->
  is_dir (fs w) (resolve output_dir) = true ->
  (forall n, In n (txt_names (fs w) output_dir) ->
             is_file (fs w) (resolve output_dir ++ [n]) = true) ->
  (forall n, In n (txt_names (fs w) output_dir) ->
             read_as_stored (content_at (fs w) (resolve output_dir ++ [n])) = true) ->
  open_w (fs w) final_file = Ok st1 ->
  (forall n, endswith (lit ".txt") n = true ->
             resolve final_file <> resolve output_dir ++ [n]) ->
  exists w',
    concatenate_transcripts output_dir final_file w = (Ok tt, w')
    /\ (exists pin, lookup (fs w') (resolve final_file)
                    = Some (File (combined (fs w) output_dir) pin))
    /\ (forall l, l <> resolve final_file -> lookup (fs w') l = lookup (fs w) l)
    /\ combined (fs w) output_dir
       = List.concat (map (fun n => content_at (fs w) (resolve output_dir ++ [n]) ++ [NL; NL])
                          (txt_names (fs w) output_dir))
    /\ NoDup (txt_names (fs w) output_dir)
    /\ (forall n, In n (txt_names (fs w) output_dir) <->
                  endswith (lit ".txt") n = true
                  /\ lookup (fs w) (resolve output_dir ++ [n]) <> None)
    /\ (forall n, In n (txt_names (fs w) output_dir) ->
                  substring (content_at (fs w) (resolve output_dir ++ [n]) ++ [NL; NL])
                            (combined (fs w) output_dir))
    /\ (txt_names (fs w) output_dir <> [] ->
        combined (fs w) output_dir
        = join [NL; NL] (map (fun n => content_at (fs w) (resolve output_dir ++ [n]))
                             (txt_names (fs w) output_dir)) ++ [NL; NL])
    /\ (txt_names (fs w) output_dir = [] -> combined (fs w) output_dir = []).
Proof.
  intros Hwf Hp Hd Hfiles _ Ho Hout.
  eexists. split.
  { apply concatenate_run with (st1 := st1); try assumption.
    apply Forall_forall. intros n Hn. split; [|auto].
    unfold txt_names in Hn. apply filter_In in Hn.
    eapply children_plain; [eassumption | apply Hn]. }
  pose proof (@open_w_spec _ _ _ Ho) as ((pin & Hf) & Hsame & _).
  cbn [fs]. repeat split.
  - exists pin. rewrite lookup_set_content, loc_eqb_refl, Hf. reflexivity.
  - intros l Hl. rewrite lookup_set_content.
    pose proof Hl as Hl'. apply not_eq_sym, loc_eqb_neq in Hl'. rewrite Hl'. auto.
  - apply NoDup_filter. apply children_NoDup. assumption.
  - unfold txt_names in H. apply filter_In in H. apply H.
  - unfold txt_names in H. apply filter_In in H. apply children_lookup, H.
  - intros [Ht Hl]. apply filter_In. split; [apply children_lookup|]; assumption.
  - intros n Hn.
    apply (concat_substring
             (fun n => content_at (fs w) (resolve output_dir ++ [n]) ++ [NL; NL])
             (txt_names (fs w) output_dir) n Hn).
  - intros Hne. unfold combined.
    rewrite <- concat_join by (destruct (txt_names (fs w) output_dir); [congruence | discriminate]).
    rewrite map_map. reflexivity.
  - intros E. unfold combined. rewrite E. reflexivity.
Qed.

(** ** A run of the whole script *)

Lemma bind_ok (A B : Type) (m : M A) (k : A -> M B) (w w' : world) (a : A) :
  m w = (Ok a, w') -> bind m k w = k a w'.
Proof. intros H. unfold bind. rewrite H. reflexivity. Qed.

Lemma NoDup_nodupb (ks : list loc) : NoDup ks -> nodupb ks = true.
Proof.
  induction 1 as [|k ks Hk _ IH]; simpl; [reflexivity|].
  rewrite IH, andb_true_r. apply negb_true_iff.
  destruct (existsb (loc_eqb k) ks) eqn:E; [|reflexivity].
  apply existsb_exists in E. destruct E as (k' & Hin & Ek).
  apply loc_eqb_eq in Ek. subst k'. contradiction.
Qed.

(** A new entry under a name that is free keeps the store well formed. *)
Lemma wf_store_add (st : store) (k : loc) (n : node) :
  wf_store st = true -> lookup st k = None -> key_ok k = true ->
  wf_store (st ++ [(k, n)]) = true.
Proof.
  intros Hwf Hfree Hk. pose proof (wf_store_keys st Hwf) as [Hnd Hok].
  unfold wf_store. rewrite map_app. apply andb_true_iff. split.
  - apply NoDup_nodupb. apply NoDup_app.
    + assumption.
    + simpl. repeat constructor. intros [].
    + intros x Hx [<-|[]]. apply lookup_none in Hfree. contradiction.
  - rewrite forallb_app. apply andb_true_iff. split.
    + apply forallb_forall. rewrite Forall_forall in Hok. assumption.
    + simpl. rewrite Hk. reflexivity.
Qed.

(** When a path can be opened for writing. *)
Lemma open_w_ok (st : store) (p : str) :
  (exists st', open_w st p = Ok st') <->
  p <> [] /\ is_dir st (resolve p) = false
  /\ (lookup st (resolve p) <> None \/ is_dir st (removelast (resolve p)) = true).
Proof.
  unfold open_w. destruct (str_eqb p []) eqn:Ep.
  { apply str_eqb_eq in Ep. split; [intros (st' & H); discriminate | tauto]. }
  apply str_eqb_neq in Ep.
  destruct (is_dir st (resolve p)) eqn:Ed.
  { split; [intros (st' & H); discriminate | intros (_ & H & _); discriminate]. }
  destruct (lookup st (resolve p)) as [m|] eqn:El.
  { split; [|eauto]. intros _. repeat split; try assumption. left. discriminate. }
  destruct (is_dir st (removelast (resolve p))) eqn:Epar.
  { split; [|eauto]. intros _. repeat split; try assumption. right. reflexivity. }
  split.
  - intros (st' & H). destruct (present st (removelast (resolve p))); discriminate.
  - intros (_ & _ & [H|H]); congruence.
Qed.

Lemma split_last_field (sep : char) (a b : str) :
  ~ In sep b ->
  exists fields field,
    split sep a = fields ++ [field] /\ split sep (a ++ b) = fields ++ [field ++ b].
Proof.
  intros Hb. induction a as [|c a (fields & field & E1 & E2)].
  - exists [], []. split; [reflexivity|]. apply split_one_field. assumption.
  - cbn [app split]. destruct (N.eqb c sep).
    + exists ([] :: fields), field. rewrite E1, E2. split; reflexivity.
    + rewrite E1, E2. destruct fields as [|f fields].
      * exists [], (c :: field). split; reflexivity.
      * exists ((c :: f) :: fields), field. split; reflexivity.
Qed.

(** The combined file is never the transcripts folder itself: its name
    ends in [.txt]. *)
Lemma final_file_not_folder (entered : str) :
  resolve (final_file_name entered) <> transcripts_folder.
Proof.
  assert (H : forall name, resolve (name ++ lit ".txt") <> transcripts_folder).
  { intros name.
    destruct (@split_last_field SEP name (lit ".txt")) as (fields & field & _ & E).
    { cbv. intuition discriminate. }
    unfold resolve. rewrite E, fold_left_snoc.
    assert (Hpush : forall stack, push_component stack (field ++ lit ".txt")
                                  = (field ++ lit ".txt") :: stack).
    { intros stack. unfold push_component.
      assert (Hlen : forall s, List.length s <= 2 -> str_eqb (field ++ lit ".txt") s = false).
      { intros s Hs. apply str_eqb_neq. intros Eq. apply (f_equal (@List.length char)) in Eq.
        rewrite length_app in Eq. simpl in Eq. lia. }
      rewrite !Hlen by (simpl; lia). reflexivity. }
    rewrite Hpush. cbn [rev]. intros Eq.
    change transcripts_folder with ([] ++ [lit "transcripts"]) in Eq.
    apply app_inj_tail in Eq. destruct Eq as [_ Eq].
    apply (f_equal (@rev char)) in Eq. rewrite rev_app_distr in Eq.
    discriminate. }
  unfold final_file_name. destruct (negb (truthy entered)).
  - apply (H (lit "combined_transcripts")).
  - apply H.
Qed.

Lemma final_file_not_empty (entered : str) : final_file_name entered <> [].
Proof.
  unfold final_file_name. destruct (negb (truthy entered)); [discriminate|].
  destruct entered; discriminate.
Qed.

Lemma is_child_false (d l : loc) :
  is_child d l = false -> forall n, l <> d ++ [n].
Proof.
  unfold is_child. intros H n ->. rewrite child_name_child in H. discriminate.
Qed.

Lemma folder_not_own_child : is_child transcripts_folder transcripts_folder = false.
Proof. reflexivity. Qed.

(** The folder made ready: created when it is missing. *)
Lemma makedirs_folder (st : store) :
  wf_store st = true ->
  path_exists st (lit "transcripts") = false ->
  makedirs st (lit "transcripts") = Ok (st ++ [(transcripts_folder, Dir)])
  /\ wf_store (st ++ [(transcripts_folder, Dir)]) = true
  /\ lookup st transcripts_folder = None.
Proof.
  intros Hwf He. unfold path_exists in He.
  change (str_eqb (lit "transcripts") []) with false in He. simpl negb in He.
  rewrite andb_true_l in He. fold transcripts_folder in He.
  assert (Hnone : lookup st transcripts_folder = None).
  { unfold present in He. apply orb_false_iff in He. destruct He as [_ He].
    destruct (lookup st transcripts_folder); [discriminate | reflexivity]. }
  assert (Hdir : is_dir st transcripts_folder = false).
  { unfold is_dir. rewrite Hnone. reflexivity. }
  split; [|split; [|assumption]].
  - unfold makedirs. change (str_eqb (lit "transcripts") []) with false. cbv iota.
    fold transcripts_folder. rewrite He.
    change (mkdirs (lit "transcripts") st [] transcripts_folder)
      with (if is_dir st transcripts_folder
            then Ok st
            else if present st transcripts_folder
                 then Raise (enotdir (lit "transcripts"))
                 else Ok (st ++ [(transcripts_folder, Dir)])).
    rewrite Hdir, He. reflexivity.
  - apply wf_store_add; [assumption | assumption | reflexivity].
Qed.

Lemma folder_made (w : world) :
  wf_store (fs w) = true ->
  is_file (fs w) transcripts_folder = false ->
  exists w1,
    (if negb (path_exists (fs w) (lit "transcripts"))
     then os_makedirs (lit "transcripts") else ret tt) w = (Ok tt, w1)
    /\ wf_store (fs w1) = true
    /\ is_dir (fs w1) transcripts_folder = true
    /\ (forall l, l <> transcripts_folder -> lookup (fs w1) l = lookup (fs w) l)
    /\ (forall l, is_dir (fs w) l = true -> is_dir (fs w1) l = true)
    /\ buffers w1 = buffers w.
Proof.
  intros Hwf Hnf.
  destruct (path_exists (fs w) (lit "transcripts")) eqn:He; cbn [negb].
  - exists w. repeat split; try assumption; try reflexivity; [|auto].
    unfold path_exists in He. apply andb_true_iff in He. destruct He as [_ He].
    fold transcripts_folder in He. unfold present in He. unfold is_file in Hnf.
    unfold is_dir.
    destruct (is_base transcripts_folder); [reflexivity|]. simpl in *.
    destruct (lookup (fs w) transcripts_folder) as [[c pin|]|]; congruence.
  - destruct (makedirs_folder (fs w) Hwf He) as (Hmk & Hwf' & Hnone).
    exists (set_fs w (fs w ++ [(transcripts_folder, Dir)])).
    unfold os_makedirs. rewrite Hmk. cbn [fs set_fs buffers].
    repeat split; try assumption.
    + unfold is_dir. rewrite lookup_app, Hnone. cbn [lookup]. rewrite loc_eqb_refl.
      apply orb_true_r.
    + intros l Hl. rewrite lookup_app. destruct (lookup (fs w) l); [reflexivity|].
      cbn [lookup]. apply not_eq_sym, loc_eqb_neq in Hl. rewrite Hl. reflexivity.
    + intros l Hl. unfold is_dir in *. rewrite lookup_app.
      destruct (is_base l); [reflexivity|]. simpl in *.
      destruct (lookup (fs w) l) as [[c pin|]|]; congruence.
Qed.

Lemma upload_to_drive_total
    (drive_create : str -> str -> outcome (option str)) (file_path folder : str) (w : world) :
  exists r w',
    upload_to_drive drive_create file_path folder w = (Ok r, w') /\ fs w' = fs w.
Proof.
  unfold upload_to_drive, try_except, lift.
  destruct (drive_create file_path folder) as [r|e]; [eauto|].
  unfold bind, show, ret. cbn. eauto.
Qed.

Lemma enumerate_in (A : Type) (xs : list A) (start i : nat) (x : A) :
  In (i, x) (enumerate start xs) -> In x xs.
Proof.
  revert start. induction xs as [|y xs IH]; intros start; simpl; [tauto|].
  intros [E|H]; [left; congruence | right; eauto].
Qed.

(** Inside the loop of [main] the number of videos is not zero, so the
    progress is computed without a division by zero. *)
Lemma progress_in_loop (video_ids : list str) (i : nat) (video_id : str) :
  In (i, video_id) (enumerate 1 video_ids) ->
  progress_of i (List.length video_ids) = ret (ProgressSet i (List.length video_ids)).
Proof.
  intros H. apply enumerate_in in H.
  destruct video_ids; [destruct H | reflexivity].
Qed.

(** One statement of the script that returns, run. *)
Ltac step := erewrite bind_ok by reflexivity; cbn [fs buffers stdout page].

Section WholeRun.

Variable isdigit : char -> bool.
Variable get_transcript : str -> outcome (list caption).
Variable get_channel : str -> videos.
Variable drive_create : str -> str -> outcome (option str).

(** C7, as amended.  Let the channel yield no video, the transcripts
    folder be absent or a directory in which every entry named [*.txt]
    is a regular file that can be unlinked, and the combined file be a
    path that can be opened for writing and lies outside that folder.
    Then the run does not raise, and the combined file exists and is
    empty. *)
Theorem empty_channel_run (inp : session) (w : world) :
  download_clicked inp = true ->
  truthy (channel_url_input inp) = true ->
  get_channel (channel_url_input inp) = Exhausted ->
  wf_store (fs w) = true ->
  is_file (fs w) transcripts_folder = false ->
  (forall n, endswith (lit ".txt") n = true ->
             lookup (fs w) (transcripts_folder ++ [n]) = None
             \/ unpinned_file (lookup (fs w) (transcripts_folder ++ [n])) = true) ->
  (exists st, open_w (fs w) (final_file_name (final_file_input inp)) = Ok st) ->
  is_child transcripts_folder (resolve (final_file_name (final_file_input inp))) = false ->
  exists w',
    main isdigit get_transcript get_channel drive_create inp w = (Ok tt, w')
    /\ exists pin,
         lookup (fs w') (resolve (final_file_name (final_file_input inp)))
         = Some (File [] pin).
Proof.
  intros Hclick Hurl Hchan Hwf Hnf Hstale Hopen Hout.
  unfold main. rewrite Hclick, Hurl. cbn [negb].
  fold (final_file_name (final_file_input inp)).
  set (final := final_file_name (final_file_input inp)) in *.
  do 4 step. step.
  (* the folder is made ready and cleared *)
  match goal with
  | |- context [bind (if negb _ then _ else _) _ ?W] =>
      destruct (@folder_made W Hwf Hnf)
        as (w1 & Hmk & Hwf1 & Hdir1 & Hsame1 & Hdirs1 & _)
  end.
  cbn [fs] in Hmk, Hsame1, Hdirs1. rewrite (@bind_ok _ _ _ _ _ _ _ Hmk).
  assert (Hne : lit "transcripts" <> []) by discriminate.
  destruct (@clear_transcript_folder_run (lit "transcripts") w1 Hwf1 Hne Hdir1)
    as (w2 & Hcl & Hlook2 & _).
  fold transcripts_folder in Hlook2. rewrite (@bind_ok _ _ _ _ _ _ _ Hcl).
  (* what the file system is after that *)
  assert (Hfinal : lookup (fs w2) (resolve final) = lookup (fs w) (resolve final)).
  { rewrite Hlook2, Hout. apply Hsame1. apply final_file_not_folder. }
  assert (Hdirs2 : forall l, is_dir (fs w) l = true -> is_dir (fs w2) l = true).
  { intros l Hl. apply Hdirs1 in Hl. unfold is_dir in *. rewrite Hlook2.
    destruct (is_base l); [reflexivity|]. simpl in *.
    destruct (lookup (fs w1) l) as [[c pin|]|]; try discriminate.
    rewrite andb_false_r. reflexivity. }
  assert (Hdir2 : is_dir (fs w2) transcripts_folder = true).
  { unfold is_dir in *. rewrite Hlook2, folder_not_own_child. assumption. }
  assert (Hopen2 : exists st, open_w (fs w2) final = Ok st).
  { apply open_w_ok. apply open_w_ok in Hopen. destruct Hopen as (H1 & H2 & H3).
    split; [assumption|]. split.
    - unfold is_dir in *. rewrite Hfinal. assumption.
    - destruct H3 as [H3|H3]; [left; rewrite Hfinal; assumption | right; auto]. }
  assert (Hnone : txt_names (fs w2) (lit "transcripts") = []).
  { unfold txt_names. fold transcripts_folder.
    destruct (filter _ _) as [|n ns] eqn:E; [reflexivity|]. exfalso.
    assert (Hn : In n (filter (endswith (lit ".txt")) (children (fs w2) transcripts_folder)))
      by (rewrite E; left; reflexivity).
    apply filter_In in Hn. destruct Hn as [Hn Ht].
    apply children_lookup in Hn. apply Hn. rewrite Hlook2.
    unfold is_child. rewrite child_name_child. cbn [andb].
    rewrite Hsame1 by (destruct n; discriminate).
    destruct (Hstale n Ht) as [H|H]; rewrite H; reflexivity. }
  destruct Hopen2 as (st3 & Hopen2).
  (* nothing to download *)
  step.
  erewrite bind_ok by (unfold get_all_video_ids, lift; rewrite Hchan; reflexivity).
  cbn [List.length enumerate for_each]. do 4 step.
  (* the combined file *)
  erewrite bind_ok.
  2:{ apply concatenate_run with (st1 := st3); cbn [fs]; try assumption.
      - intros n _. apply is_child_false. assumption.
      - rewrite Hnone. constructor. }
  cbn [fs buffers stdout page]. unfold combined. rewrite Hnone. cbn [map List.concat].
  pose proof (@open_w_spec _ _ _ Hopen2) as ((pin & Hf) & _).
  pose proof (@open_w_not_dir _ _ _ Hopen2) as (Hfne & Hfd).
  assert (Hcontent : lookup (set_content st3 (resolve final) []) (resolve final)
                     = Some (File [] pin)).
  { rewrite lookup_set_content, loc_eqb_refl, Hf. reflexivity. }
  step.
  erewrite bind_ok.
  2:{ unfold read_file, read_text. cbn [fs].
      apply str_eqb_neq in Hfne. rewrite Hfne.
      unfold is_dir in *. rewrite Hcontent.
      apply orb_false_iff in Hfd. destruct Hfd as [Hb _]. rewrite Hb. reflexivity. }
  do 2 step.
  (* the upload, if asked for *)
  destruct (drive_checked inp); [|eexists; split; [reflexivity | eauto]].
  step.
  destruct (upload_clicked inp); [|eexists; split; [reflexivity | eauto]].
  step.
  destruct (path_exists _ final); [|eexists; split; [reflexivity | eauto]].
  step.
  match goal with
  | |- context [bind (upload_to_drive ?d ?f ?i) _ ?W] =>
      destruct (upload_to_drive_total d f i W) as (r & w4 & Hup & Hfs4)
  end.
  rewrite (@bind_ok _ _ _ _ _ _ _ Hup). cbn [fs] in Hfs4.
  destruct r as [[|c id]|].
  - eexists. split; [reflexivity|]. rewrite Hfs4. eauto.
  - do 1 step. eexists. split; [reflexivity|]. cbn [fs]. rewrite Hfs4. eauto.
  - eexists. split; [reflexivity|]. rewrite Hfs4. eauto.
Qed.

End WholeRun.

(** ** The properties on sample data *)

Lemma clear_transcript_folder_outcome_witness :
  exists w',
    clear_transcript_folder (lit "transcripts") (world_of pinned_store) = (Ok tt, w')
    /\ lookup (fs w') [lit "transcripts"; lit "a1.txt"] = None
    /\ lookup (fs w') [lit "transcripts"; lit "a2.txt"] = Some (File (lit "world") true).
Proof.
  destruct (@clear_transcript_folder_outcome (lit "transcripts") (world_of pinned_store))
    as (w' & Hrun & Hlook & _).
  - reflexivity.
  - discriminate.
  - reflexivity.
  - exists w'. split; [exact Hrun|]. split; rewrite Hlook; reflexivity.
Defined.

Lemma concatenate_transcripts_outcome_witness :
  exists w',
    concatenate_transcripts (lit "transcripts") (lit "combined_transcripts.txt")
      (world_of sample_store) = (Ok tt, w')
    /\ exists pin,
         lookup (fs w') [lit "combined_transcripts.txt"]
         = Some (File (lit "hello" ++ [NL; NL] ++ lit "world" ++ [NL; NL]) pin).
Proof.
  destruct (@concatenate_transcripts_outcome (lit "transcripts")
              (lit "combined_transcripts.txt") (world_of sample_store)
              (sample_store ++ [([lit "combined_transcripts.txt"], File [] false)]))
    as (w' & Hrun & Hfile & _).
  - reflexivity.
  - discriminate.
  - reflexivity.
  - intros n Hn. vm_compute in Hn. destruct Hn as [<-|[<-|[]]]; reflexivity.
  - intros n Hn. vm_compute in Hn. destruct Hn as [<-|[<-|[]]]; reflexivity.
  - reflexivity.
  - intros n _ H. vm_compute in H. discriminate H.
  - exists w'. split; [exact Hrun | exact Hfile].
Defined.

(** C1 as stated fails when the combined file is itself a [.txt] entry of
    the folder: it is emptied before the folder is read, so what it held
    is not in the result. *)
Lemma concatenate_transcripts_counterexample :
  wf_store sample_store = true
  /\ In (lit "a1.txt") (txt_names sample_store (lit "transcripts"))
  /\ content_at sample_store (resolve (lit "transcripts") ++ [lit "a1.txt"]) = lit "hello"
  /\ fst (concatenate_transcripts (lit "transcripts") (lit "transcripts/a1.txt")
            (world_of sample_store)) = Ok tt
  /\ content_at
       (fs (snd (concatenate_transcripts (lit "transcripts") (lit "transcripts/a1.txt")
                   (world_of sample_store))))
       (resolve (lit "transcripts/a1.txt"))
     = [NL; NL] ++ lit "world" ++ [NL; NL]
  /\ ~ substring (lit "hello")
         (content_at
            (fs (snd (concatenate_transcripts (lit "transcripts") (lit "transcripts/a1.txt")
                        (world_of sample_store))))
            (resolve (lit "transcripts/a1.txt"))).
Proof.
  split; [reflexivity|]. split; [left; reflexivity|].
  split; [reflexivity|]. split; [reflexivity|]. split; [reflexivity|].
  intros (before & after & E). vm_compute in E.
  repeat (destruct before as [|? before]; [discriminate E | injection E as _ E]).
  destruct before; discriminate E.
Qed.

Lemma empty_channel_run_witness :
  exists w',
    main ascii_digit sample_api empty_channel no_drive sample_session
      (world_of (leftover_store false)) = (Ok tt, w')
    /\ exists pin, lookup (fs w') [lit "combined_transcripts.txt"] = Some (File [] pin).
Proof.
  apply (@empty_channel_run ascii_digit sample_api empty_channel no_drive
           sample_session (world_of (leftover_store false))).
  - reflexivity.
  - reflexivity.
  - reflexivity.
  - reflexivity.
  - reflexivity.
  - intros n _.
    destruct (str_eqb (lit "old.txt") n) eqn:E.
    + apply str_eqb_eq in E. subst n. right. reflexivity.
    + left. unfold leftover_store, world_of. cbn [fs lookup].
      change transcripts_folder with [lit "transcripts"]. cbn [app].
      change (loc_eqb [lit "transcripts"] [lit "transcripts"; n]) with false.
      change (loc_eqb [lit "transcripts"; lit "old.txt"] [lit "transcripts"; n])
        with (str_eqb (lit "old.txt") n && true).
      rewrite E. reflexivity.
  - eexists. reflexivity.
  - reflexivity.
Defined.

(** C7 as stated fails when a transcript of an earlier run cannot be
    deleted: the run goes on, and the combined file holds that
    transcript. *)
Lemma empty_channel_run_counterexample :
  get_all_video_ids empty_channel (channel_url_input sample_session)
    (world_of (leftover_store true)) = (Ok [], world_of (leftover_store true))
  /\ fst (main ascii_digit sample_api empty_channel no_drive sample_session
            (world_of (leftover_store true))) = Ok tt
  /\ lookup
       (fs (snd (main ascii_digit sample_api empty_channel no_drive sample_session
                   (world_of (leftover_store true)))))
       (resolve (final_file_name (final_file_input sample_session)))
     = Some (File (lit "stale" ++ [NL; NL]) false)
  /\ content_at
       (fs (snd (main ascii_digit sample_api empty_channel no_drive sample_session
                   (world_of (leftover_store true)))))
       (resolve (final_file_name (final_file_input sample_session)))
     <> [].
Proof.
  split; [reflexivity|]. split; [reflexivity|]. split; [reflexivity|].
  vm_compute. discriminate.
Qed.

(** The scenario of a channel with the videos [a1] and [a2], of which
    only [a1] has captions: [a1.txt] is written, [a2] is skipped with a
    log line, and the combined file holds the transcript of [a1] and two
    line breaks. *)
Example two_videos_run :
  let run := main ascii_digit sample_api two_videos no_drive sample_session (world_of []) in
  fst run = Ok tt
  /\ lookup (fs (snd run)) [lit "transcripts"; lit "a1.txt"]
     = Some (File (lit "hello world") false)
  /\ lookup (fs (snd run)) [lit "transcripts"; lit "a2.txt"] = None
  /\ lookup (fs (snd run)) [lit "combined_transcripts.txt"]
     = Some (File (lit "hello world" ++ [NL; NL]) false)
  /\ stdout (snd run)
     = [lit "Failed to download transcript for video ID a2: Subtitles are disabled for this video"].
Proof. vm_compute. repeat split. Qed.

(** * Further properties *)

(** ** Cleaning *)

Lemma join_app (sep : str) (xs ys : list str) :
  xs <> [] -> ys <> [] ->
  join sep (xs ++ ys) = join sep xs ++ sep ++ join sep ys.
Proof.
  induction xs as [|x xs IH]; intros Hx Hy; [congruence|].
  destruct xs as [|x' xs].
  - cbn [app]. rewrite join_cons by assumption. reflexivity.
  - change ((x :: x' :: xs) ++ ys) with (x :: (x' :: xs) ++ ys).
    rewrite join_cons by discriminate. rewrite IH by (discriminate || assumption).
    rewrite (@join_cons sep x (x' :: xs)) by discriminate.
    rewrite <- !app_assoc. reflexivity.
Qed.

Lemma join_length_cons (c : char) (x : str) (xs : list str) :
  xs <> [] ->
  List.length (join [c] (x :: xs)) = List.length x + 1 + List.length (join [c] xs).
Proof.
  intros H. rewrite join_cons by assumption. rewrite !length_app. simpl. lia.
Qed.

(** What a filter leaves, joined, and what it drops fit in the joined whole. *)
Lemma join_filter_length (c : char) (keep : str -> bool) (lines : list str) :
  List.length (join [c] (filter keep lines))
  + List.length (List.concat (filter (fun l => negb (keep l)) lines))
  <= List.length (join [c] lines).
Proof.
  induction lines as [|x lines IH]; [simpl; lia|].
  destruct (list_eq_dec (list_eq_dec N.eq_dec) lines []) as [->|Hne].
  { cbn. destruct (keep x); cbn; rewrite ?app_nil_r; lia. }
  rewrite (@join_length_cons c x lines Hne).
  cbn [filter]. destruct (keep x); cbn [negb].
  - destruct (filter keep lines) as [|f fs] eqn:E.
    + cbn [join List.length] in *. lia.
    + rewrite (@join_length_cons c x (f :: fs)) by discriminate. lia.
  - cbn [List.concat]. rewrite length_app. lia.
Qed.

Section CleaningMore.

Variable isdigit : char -> bool.

Local Abbreviation keep := (fun line => negb (is_timestamp_line isdigit line)) (only parsing).

Lemma timestamp_line_not_empty (line : str) :
  is_timestamp_line isdigit line = true -> line <> [].
Proof. intros H ->. discriminate H. Qed.

(** X2.  Cleaning never makes a text longer. *)
Theorem remove_timestamps_length (s : str) :
  List.length (remove_timestamps isdigit s) <= List.length s.
Proof.
  pose proof (join_filter_length NL keep (split NL s)) as H.
  rewrite join_split in H. unfold remove_timestamps, filtered_lines. lia.
Qed.

(** X1.  Cleaning leaves a text as it is exactly when none of its lines
    begins with a timestamp. *)
Theorem remove_timestamps_unchanged_iff (s : str) :
  remove_timestamps isdigit s = s <->
  Forall (fun line => ~ begins_with_timestamp isdigit line) (split NL s).
Proof.
  split.
  - intros E.
    pose proof (join_filter_length NL keep (split NL s)) as H.
    rewrite join_split in H.
    change (join [NL] (filter keep (split NL s))) with (remove_timestamps isdigit s) in H.
    rewrite E in H.
    set (dropped := filter (fun l => negb (keep l)) (split NL s)) in *.
    assert (Hd : List.length (List.concat dropped) = 0) by lia.
    clear H E. apply Forall_forall. intros line Hin Hb.
    apply is_timestamp_line_iff in Hb.
    assert (Hin' : In line dropped).
    { apply filter_In. split; [assumption|]. cbv beta. rewrite Hb. reflexivity. }
    apply in_split in Hin'. destruct Hin' as (l1 & l2 & E).
    rewrite E, concat_app in Hd. cbn [List.concat] in Hd.
    rewrite !length_app in Hd.
    apply timestamp_line_not_empty in Hb. destruct line; [congruence | simpl in Hd; lia].
  - intros H. unfold remove_timestamps, filtered_lines.
    rewrite filter_all; [apply join_split|].
    eapply Forall_impl; [|exact H]. intros line Hl. apply keep_iff. assumption.
Qed.

Lemma filtered_lines_app (a b : str) :
  filtered_lines isdigit (a ++ NL :: b) = filtered_lines isdigit a ++ filtered_lines isdigit b.
Proof. unfold filtered_lines. rewrite split_app, filter_app. reflexivity. Qed.

(** X3.  A text can be cleaned part by part: for two parts put together
    with a line break, the cleaned text is the two cleaned parts put
    together with a line break; a part of which no line is kept gives
    nothing, not even an empty line. *)
Theorem remove_timestamps_app (a b : str) :
  remove_timestamps isdigit (a ++ NL :: b) =
  match filtered_lines isdigit a, filtered_lines isdigit b with
  | [], _ => remove_timestamps isdigit b
  | _, [] => remove_timestamps isdigit a
  | _, _ => remove_timestamps isdigit a ++ NL :: remove_timestamps isdigit b
  end.
Proof.
  unfold remove_timestamps. rewrite filtered_lines_app.
  destruct (filtered_lines isdigit a) as [|x xs]; [reflexivity|].
  destruct (filtered_lines isdigit b) as [|y ys]; [rewrite app_nil_r; reflexivity|].
  rewrite join_app by discriminate. reflexivity.
Qed.

Lemma join_one_line (sep : str) (parts : list str) :
  one_line sep -> Forall one_line parts -> one_line (join sep parts).
Proof.
  intros Hs. induction 1 as [|p ps Hp _ IH]; [intros []|].
  destruct ps as [|q ps]; [assumption|].
  rewrite join_cons by discriminate. unfold one_line in *.
  rewrite !in_app_iff. tauto.
Qed.

(** X4.  Fragments are joined by spaces, so fragments without line breaks
    make a transcript of one line, and cleaning it is all or nothing: the
    transcript is kept whole, timestamps inside it included, unless it
    begins with a timestamp, and then nothing of it is left. *)
Theorem one_line_transcript_all_or_nothing (fragments : list caption) :
  Forall (fun f => one_line (text f)) fragments ->
  remove_timestamps isdigit (join (lit " ") (map text fragments)) =
  if is_timestamp_line isdigit (join (lit " ") (map text fragments))
  then []
  else join (lit " ") (map text fragments).
Proof.
  intros H.
  assert (Hone : one_line (join (lit " ") (map text fragments))).
  { apply join_one_line.
    - intros [E|[]]. discriminate E.
    - apply Forall_map. assumption. }
  unfold remove_timestamps, filtered_lines.
  rewrite (@split_one_field NL _ Hone). cbn [filter].
  destruct (is_timestamp_line isdigit _); reflexivity.
Qed.

End CleaningMore.

(** ** Downloading *)

Lemma set_content_twice (st : store) (l : loc) (a b : str) :
  set_content (set_content st l a) l b = set_content st l b.
Proof.
  unfold set_content. rewrite map_map. apply map_ext. intros [k m]. cbn [fst snd].
  destruct (loc_eqb k l) eqn:E; [|cbn [fst]; rewrite E; reflexivity].
  destruct m; cbn [fst snd]; rewrite E; reflexivity.
Qed.

(** Writing the same text to the same path again changes nothing. *)
Lemma write_text_again (st st' : store) (p c : str) :
  write_text st p c = Ok st' -> write_text st' p c = Ok st'.
Proof.
  intros H. pose proof (@write_text_spec _ _ _ _ H) as ((pin & Hf) & _).
  unfold write_text in H. destruct (open_w st p) as [st1|e] eqn:Ho; [|discriminate].
  injection H as <-.
  pose proof (@open_w_not_dir _ _ _ Ho) as (Hp & Hd).
  unfold write_text, open_w. apply str_eqb_neq in Hp. rewrite Hp.
  unfold is_dir in *. apply orb_false_iff in Hd. destruct Hd as [Hb _].
  rewrite Hb, Hf. cbn [orb]. rewrite !set_content_twice. reflexivity.
Qed.

(** A file cannot be created under what is not a directory. *)
Lemma open_w_under_missing (st : store) (p : str) (l : loc) :
  p <> [] -> resolve p = l -> is_base l = false -> lookup st l = None ->
  is_dir st (removelast l) = false ->
  exists e,
    (exn_kind e = FileNotFoundError \/ exn_kind e = NotADirectoryError)
    /\ open_w st p = Raise e.
Proof.
  intros Hp <- Hb Hnone Hd. unfold open_w. apply str_eqb_neq in Hp. rewrite Hp.
  unfold is_dir at 1. rewrite Hb, Hnone, Hd. cbn [orb].
  destruct (present st (removelast (resolve p))); eexists; split; try reflexivity;
    [right | left]; reflexivity.
Qed.

Lemma filter_none (A : Type) (keep : A -> bool) (xs : list A) :
  Forall (fun x => keep x = false) xs -> filter keep xs = [].
Proof.
  induction 1 as [|x xs Hx _ IH]; simpl; [reflexivity|]. rewrite Hx. assumption.
Qed.

Section DownloadMore.

Variable isdigit : char -> bool.
Variable get_transcript : str -> outcome (list caption).

Local Abbreviation download := (download_transcript isdigit get_transcript) (only parsing).

(** X5.  A transcript that is not empty but of which every line begins
    with a timestamp is not skipped: [download_transcript] writes an
    empty file for it, logs nothing and returns [True]. *)
Theorem timestamps_only_written_empty
    (video_id output_dir : str) (fragments : list caption) (st : store) (w : world) :
  get_transcript video_id = Ok fragments ->
  truthy (join (lit " ") (map text fragments)) = true ->
  Forall (begins_with_timestamp isdigit) (split NL (join (lit " ") (map text fragments))) ->
  open_w (fs w) (os_path_join output_dir (video_id ++ lit ".txt")) = Ok st ->
  exists w' pin,
    download video_id output_dir w = (Ok true, w')
    /\ lookup (fs w') (resolve (os_path_join output_dir (video_id ++ lit ".txt")))
       = Some (File [] pin)
    /\ stdout w' = stdout w.
Proof.
  intros Hf Ht Hall Ho.
  assert (Hclean : remove_timestamps isdigit (join (lit " ") (map text fragments)) = []).
  { unfold remove_timestamps, filtered_lines. rewrite filter_none; [reflexivity|].
    eapply Forall_impl; [|exact Hall]. intros line Hl.
    apply is_timestamp_line_iff in Hl. cbv beta. rewrite Hl. reflexivity. }
  rewrite download_transcript_cases, Hf. cbv zeta. rewrite Ht, Hclean.
  destruct (write_text (fs w) (os_path_join output_dir (video_id ++ lit ".txt")) [])
    as [st'|e] eqn:E.
  - apply write_text_spec in E. destruct E as ((pin & Hfile) & _).
    eexists. exists pin. split; [reflexivity|]. split; [exact Hfile | reflexivity].
  - unfold write_text in E. rewrite Ho in E. discriminate.
Qed.

(** X6.  When [output_dir] is not a directory, a transcript that was
    fetched is lost: opening the file fails, [download_transcript] logs
    the error, returns [False] and leaves the file system as it was. *)
Theorem download_without_folder
    (video_id output_dir : str) (fragments : list caption) (w : world) :
  get_transcript video_id = Ok fragments ->
  truthy (join (lit " ") (map text fragments)) = true ->
  plain_name (video_id ++ lit ".txt") = true ->
  is_dir (fs w) (resolve output_dir) = false ->
  lookup (fs w) (resolve output_dir ++ [video_id ++ lit ".txt"]) = None ->
  exists e,
    (exn_kind e = FileNotFoundError \/ exn_kind e = NotADirectoryError)
    /\ download video_id output_dir w
       = (Ok false,
          mk_world (fs w) (buffers w)
            (stdout w ++ [lit "Failed to download transcript for video ID " ++ video_id
                            ++ lit ": " ++ exn_str e]) (page w)).
Proof.
  intros Hf Ht Hn Hd Hnone.
  rewrite download_transcript_cases, Hf. cbv zeta. rewrite Ht.
  pose proof (plain_name_facts _ Hn) as (Hne & _).
  destruct (@open_w_under_missing (fs w) (os_path_join output_dir (video_id ++ lit ".txt"))
              (resolve output_dir ++ [video_id ++ lit ".txt"])) as (e & Hk & He).
  - apply join_not_empty. assumption.
  - apply resolve_join. assumption.
  - apply child_not_base. assumption.
  - exact Hnone.
  - rewrite removelast_last. exact Hd.
  - exists e. split; [exact Hk|]. unfold write_text. rewrite He. reflexivity.
Qed.

(** X7.  Downloading a video a second time gives the same answer and
    leaves the file system as the first download left it. *)
Theorem download_twice (video_id output_dir : str) (w w' : world) (b : bool) :
  download video_id output_dir w = (Ok b, w') ->
  exists w'',
    download video_id output_dir w' = (Ok b, w'') /\ fs w'' = fs w'.
Proof.
  rewrite !download_transcript_cases.
  destruct (get_transcript video_id) as [fragments|e].
  - cbv zeta. destruct (truthy _).
    + destruct (write_text (fs w) _ _) as [st|e] eqn:E.
      * intros [= <- <-]. cbn [fs set_fs].
        rewrite (write_text_again _ _ _ E). eexists. split; reflexivity.
      * intros [= <- <-]. cbn [fs]. rewrite E. eexists. split; reflexivity.
    + intros [= <- <-]. eexists. split; reflexivity.
  - intros [= <- <-]. eexists. split; reflexivity.
Qed.

End DownloadMore.

(** ** Combining *)

Lemma for_each_app (A : Type) (xs ys : list A) (body : A -> M unit) (w : world) :
  for_each (xs ++ ys) body w =
  match for_each xs body w with
  | (Ok _, w1) => for_each ys body w1
  | (Raise e, w1) => (Raise e, w1)
  end.
Proof.
  revert w. induction xs as [|x xs IH]; intros w; [reflexivity|].
  cbn [app for_each]. unfold bind.
  destruct (body x w) as [[[]|e] w1]; [apply IH | reflexivity].
Qed.

Lemma is_dir_set_content (st : store) (l l' : loc) (c : str) :
  is_dir (set_content st l c) l' = is_dir st l'.
Proof.
  unfold is_dir. rewrite lookup_set_content.
  destruct (loc_eqb l l') eqn:E; [|reflexivity].
  apply loc_eqb_eq in E. subst l'. destruct (lookup st l) as [[? ?|]|]; reflexivity.
Qed.

(** Opening a file for writing makes no directory and removes none. *)
Lemma open_w_dirs (st st' : store) (p : str) (l : loc) :
  open_w st p = Ok st' -> is_dir st' l = is_dir st l.
Proof.
  intros Ho. pose proof (@open_w_not_dir _ _ _ Ho) as (_ & Hd).
  pose proof (@open_w_spec _ _ _ Ho) as ((pin & Hf) & Hsame & _).
  destruct (loc_eqb (resolve p) l) eqn:E.
  - apply loc_eqb_eq in E. subst l. rewrite Hd. unfold is_dir in *.
    rewrite Hf. apply orb_false_iff in Hd. destruct Hd as [-> _]. reflexivity.
  - apply loc_eqb_neq in E. unfold is_dir. rewrite Hsame by congruence. reflexivity.
Qed.

(** The listing of a directory after a file was opened for writing: the
    names as before, and the name of the file after them if it is new
    there. *)
Lemma open_w_children (st st' : store) (p : str) (d : loc) :
  open_w st p = Ok st' ->
  exists extra,
    children st' d = children st d ++ extra
    /\ forall n, In n extra -> resolve p = d ++ [n].
Proof.
  intros Ho. apply open_w_spec in Ho. destruct Ho as (_ & _ & [Hk|[Hk _]]).
  - exists []. rewrite app_nil_r. split; [apply children_keys; assumption | intros n []].
  - assert (E : children st' d = children (st ++ [(resolve p, Dir)]) d).
    { apply children_keys. rewrite Hk, map_app. reflexivity. }
    rewrite E, children_app. cbn [children flat_map fst].
    destruct (child_name d (resolve p)) as [n|] eqn:En.
    + exists [n]. split; [reflexivity|]. intros m [<-|[]]. apply child_name_spec. assumption.
    + exists []. split; [reflexivity | intros n []].
Qed.

(** X8.  [concatenate_transcripts] opens the combined file before it
    lists the folder.  So when the folder is not a directory the call
    raises, and the combined file is left behind empty: created if it
    was missing, emptied if it held something. *)
Theorem concatenate_without_folder
    (output_dir final_file : str) (w : world) (st1 : store) :
  open_w (fs w) final_file = Ok st1 ->
  output_dir = [] \/ is_dir (fs w) (resolve output_dir) = false ->
  exists e w' pin,
    concatenate_transcripts output_dir final_file w = (Raise e, w')
    /\ (exn_kind e = FileNotFoundError \/ exn_kind e = NotADirectoryError)
    /\ lookup (fs w') (resolve final_file) = Some (File [] pin)
    /\ (forall l, l <> resolve final_file -> lookup (fs w') l = lookup (fs w) l)
    /\ buffers w' = buffers w.
Proof.
  intros Ho Hd.
  pose proof (@open_w_spec _ _ _ Ho) as ((pin & Hf) & Hsame & _).
  assert (Hlist : exists e, listdir st1 output_dir = Raise e
                            /\ (exn_kind e = FileNotFoundError
                                \/ exn_kind e = NotADirectoryError)).
  { unfold listdir. destruct (str_eqb output_dir []) eqn:E.
    - eexists. split; [reflexivity | left; reflexivity].
    - destruct Hd as [->|Hd]; [discriminate E|].
      rewrite (@open_w_dirs _ _ _ _ Ho), Hd.
      destruct (present st1 (resolve output_dir)); eexists; split; try reflexivity;
        [right | left]; reflexivity. }
  destruct Hlist as (e & Hl & Hk).
  exists e. eexists. exists pin. split; [|split; [exact Hk|]].
  - unfold concatenate_transcripts, with_open_w. rewrite Ho.
    unfold bind, os_listdir. cbn [fs]. rewrite Hl. reflexivity.
  - unfold close. cbn [fs buffers buffer_of buffer_drop]. rewrite loc_eqb_refl.
    split; [|split; [|reflexivity]].
    + rewrite lookup_set_content, loc_eqb_refl, Hf. reflexivity.
    + intros l Hne. rewrite lookup_set_content.
      pose proof Hne as Hne'. apply not_eq_sym, loc_eqb_neq in Hne'. rewrite Hne'. auto.
Qed.


(** X10.  Combining a second time gives the same combined file: after a
    run that meets the conditions of the first, a second run changes
    nothing. *)
Theorem concatenate_twice
    (output_dir final_file : str) (w : world) (st1 : store) :
  wf_store (fs w) = true ->
  output_dir <> [] ->
  is_dir (fs w) (resolve output_dir) = true ->
  (forall n, In n (txt_names (fs w) output_dir) ->
             is_file (fs w) (resolve output_dir ++ [n]) = true) ->
  open_w (fs w) final_file = Ok st1 ->
  (forall n, endswith (lit ".txt") n = true ->
             resolve final_file <> resolve output_dir ++ [n]) ->
  exists w',
    concatenate_transcripts output_dir final_file w = (Ok tt, w')
    /\ concatenate_transcripts output_dir final_file w' = (Ok tt, w').
Proof.
  intros Hwf Hp Hd Hfiles Ho Hout.
  assert (Hall : Forall (fun n => plain_name n = true
                                  /\ is_file (fs w) (resolve output_dir ++ [n]) = true)
                        (txt_names (fs w) output_dir)).
  { apply Forall_forall. intros n Hn. split; [|auto].
    unfold txt_names in Hn. apply filter_In in Hn.
    eapply children_plain; [eassumption | apply Hn]. }
  pose proof (@open_w_spec _ _ _ Ho) as ((pin & Hf) & Hsame & _).
  pose proof (@open_w_not_dir _ _ _ Ho) as (Hfne & Hfd).
  set (C := combined (fs w) output_dir).
  set (st2 := set_content st1 (resolve final_file) C).
  assert (Hlook2 : forall n, endswith (lit ".txt") n = true ->
                     lookup st2 (resolve output_dir ++ [n])
                     = lookup (fs w) (resolve output_dir ++ [n])).
  { intros n Hn. unfold st2. rewrite lookup_set_content.
    pose proof (Hout n Hn) as Hne. apply loc_eqb_neq in Hne. rewrite Hne.
    apply Hsame. apply not_eq_sym. auto. }
  assert (Hnames : txt_names st2 output_dir = txt_names (fs w) output_dir).
  { unfold txt_names, st2.
    rewrite (children_keys _ st1 _ (keys_set_content st1 _ _)).
    apply (@open_w_txt_names _ _ _ _ Ho Hout). }
  assert (Hopen2 : open_w st2 final_file = Ok (set_content st2 (resolve final_file) [])).
  { unfold open_w. apply str_eqb_neq in Hfne. rewrite Hfne.
    unfold st2 at 1 2. rewrite is_dir_set_content, (@open_w_dirs _ _ _ _ Ho), Hfd.
    rewrite lookup_set_content, loc_eqb_refl, Hf. reflexivity. }
  exists (mk_world st2 (buffers w) (stdout w) (page w)). split.
  - apply concatenate_run; assumption.
  - rewrite (@concatenate_run output_dir final_file
               (mk_world st2 (buffers w) (stdout w) (page w))
               (set_content st2 (resolve final_file) [])); cbn [fs buffers stdout page].
    + unfold st2 at 1. rewrite !set_content_twice.
      replace (combined st2 output_dir) with C; [reflexivity|].
      unfold C, combined. rewrite Hnames. f_equal. apply map_ext_in.
      intros n Hn. unfold txt_names in Hn. apply filter_In in Hn.
      unfold content_at. rewrite Hlook2 by apply Hn. reflexivity.
    + assumption.
    + unfold st2. rewrite is_dir_set_content, (@open_w_dirs _ _ _ _ Ho). assumption.
    + assumption.
    + assumption.
    + rewrite Hnames. apply Forall_forall. intros n Hn.
      rewrite Forall_forall in Hall. destruct (Hall n Hn) as [Hpl Hfile].
      split; [assumption|].
      unfold txt_names in Hn. apply filter_In in Hn. destruct Hn as [_ Htxt].
      unfold is_file in *. rewrite Hlook2; assumption.
Qed.

(** ** Clearing *)

(** The loop of [clear_transcript_folder] returns whatever the names are:
    what one turn raises is caught in that turn. *)
Lemma clear_loop_total (folder_path : str) (names : list str) (w : world) :
  exists w',
    for_each names (fun filename =>
      try_except
        (regular <- os_path_isfile (os_path_join folder_path filename) ;;
         if regular then os_unlink (os_path_join folder_path filename) else ret tt)
        (fun e => show (ErrorBox (lit "Error deleting " ++ filename
                                    ++ lit ": " ++ exn_str e)))) w
    = (Ok tt, w').
Proof.
  revert w. induction names as [|n names IH]; intros w; [eexists; reflexivity|].
  cbn [for_each]. unfold bind at 1, try_except at 1.
  destruct (bind _ _ w) as [[[]|e] w1].
  - apply IH.
  - unfold show at 1. apply IH.
Qed.

(** An exception leaves [clear_transcript_folder] only from the listing
    of the folder, which is outside the [try]: what a turn of the loop
    raises is caught in that turn, and a missing folder is reported. *)
Lemma clear_transcript_folder_raise_inv
    (folder_path : str) (w w' : world) (e : exn) :
  clear_transcript_folder folder_path w = (Raise e, w') ->
  path_exists (fs w) folder_path = true
  /\ listdir (fs w) folder_path = Raise e /\ w' = w.
Proof.
  unfold clear_transcript_folder, bind at 1, os_path_exists.
  destruct (path_exists (fs w) folder_path); [|discriminate].
  unfold bind at 1. unfold bind at 1, os_listdir.
  destruct (listdir (fs w) folder_path) as [names|e1].
  - destruct (clear_loop_total folder_path names w) as (w1 & Hrun).
    rewrite Hrun. discriminate.
  - intros [= -> <-]. auto.
Qed.

Lemma normal_path_not_empty (p : str) : normal_path p = true -> p <> [].
Proof. intros H ->. discriminate H. Qed.

(** [os.listdir] on a regular file. *)
Lemma listdir_file (st : store) (p : str) :
  p <> [] -> is_file st (resolve p) = true ->
  path_exists st p = true /\ listdir st p = Raise (enotdir p).
Proof.
  intros Hp Hf. apply str_eqb_neq in Hp.
  unfold is_file in Hf. apply andb_true_iff in Hf. destruct Hf as [Hb Hf].
  apply negb_true_iff in Hb.
  unfold path_exists, listdir, is_dir, present. rewrite Hp, Hb.
  destruct (lookup st (resolve p)) as [[c pin|]|]; try discriminate Hf.
  split; reflexivity.
Qed.

(** X11.  Let the folder path be written in normal form.  Then
    [clear_transcript_folder] raises exactly when [os.path.exists] holds
    of the path and [os.listdir] raises on it: it raises what the
    listing raised, and nothing has been changed or shown.  So it is
    with a regular file in the place of the folder, where the listing
    raises [NotADirectoryError].  A missing folder is reported on the
    page, and neither it nor a deletion that fails makes the function
    raise. *)
Theorem clear_transcript_folder_raises_iff (folder_path : str) (w : world) :
  normal_path folder_path = true ->
  (forall (e : exn) (w' : world),
      clear_transcript_folder folder_path w = (Raise e, w') <->
      path_exists (fs w) folder_path = true
      /\ listdir (fs w) folder_path = Raise e /\ w' = w)
  /\ (is_file (fs w) (resolve folder_path) = true ->
      clear_transcript_folder folder_path w = (Raise (enotdir folder_path), w))
  /\ (path_exists (fs w) folder_path = false ->
      clear_transcript_folder folder_path w
      = (Ok tt, mk_world (fs w) (buffers w) (stdout w)
                  (page w ++ [WarningBox (lit "Transcript folder does not exist")]))).
Proof.
  intros Hn. apply normal_path_not_empty in Hn.
  assert (Hraise : forall e, path_exists (fs w) folder_path = true ->
                     listdir (fs w) folder_path = Raise e ->
                     clear_transcript_folder folder_path w = (Raise e, w)).
  { intros e He Hl. unfold clear_transcript_folder, bind at 1, os_path_exists.
    rewrite He. unfold bind at 1. unfold bind at 1, os_listdir.
    rewrite Hl. reflexivity. }
  split; [|split].
  - intros e w'. split.
    + apply clear_transcript_folder_raise_inv.
    + intros (He & Hl & ->). apply Hraise; assumption.
  - intros Hf. destruct (listdir_file (fs w) Hn Hf) as [He Hl].
    apply Hraise; assumption.
  - intros He. unfold clear_transcript_folder, bind at 1, os_path_exists.
    rewrite He. reflexivity.
Qed.

Lemma wf_store_remove_at (st : store) (l : loc) :
  wf_store st = true -> wf_store (remove_at st l) = true.
Proof.
  intros Hwf. apply wf_store_keys in Hwf. destruct Hwf as [Hnd Hok].
  assert (Hkeys : map fst (remove_at st l)
                  = filter (fun k => negb (loc_eqb k l)) (map fst st)).
  { unfold remove_at. induction st as [|[k m] st IH]; [reflexivity|].
    cbn [filter map fst]. destruct (loc_eqb k l); cbn [negb map fst];
      [|f_equal]; apply IH; [inversion Hnd | inversion Hok | inversion Hnd | inversion Hok];
      assumption. }
  unfold wf_store. rewrite Hkeys. apply andb_true_iff. split.
  - apply NoDup_nodupb, NoDup_filter. assumption.
  - apply forallb_forall. intros k Hk. apply filter_In in Hk.
    rewrite Forall_forall in Hok. apply Hok, Hk.
Qed.

(** The loop of [clear_transcript_folder] keeps the file system well
    formed. *)
Lemma clear_loop_wf (folder_path : str) (names : list str) :
  Forall (fun n => plain_name n = true) names ->
  forall (w w' : world) (r : outcome unit),
    for_each names (fun filename =>
      try_except
        (regular <- os_path_isfile (os_path_join folder_path filename) ;;
         if regular then os_unlink (os_path_join folder_path filename) else ret tt)
        (fun e => show (ErrorBox (lit "Error deleting " ++ filename
                                    ++ lit ": " ++ exn_str e)))) w
    = (r, w') ->
    wf_store (fs w) = true -> wf_store (fs w') = true.
Proof.
  induction 1 as [|n names Hn _ IH]; intros w w' r Hrun Hwf.
  - injection Hrun as _ <-. assumption.
  - cbn [for_each] in Hrun. unfold bind at 1 in Hrun.
    rewrite clear_step in Hrun by assumption.
    eapply IH; [exact Hrun|].
    destruct (lookup (fs w) (resolve folder_path ++ [n])) as [[c [|]|]|]; cbn [fs set_fs];
      try assumption.
    apply wf_store_remove_at. assumption.
Qed.

(** Clearing keeps the file system well formed. *)
Lemma clear_transcript_folder_wf (folder_path : str) (w w' : world) :
  wf_store (fs w) = true ->
  folder_path <> [] ->
  is_dir (fs w) (resolve folder_path) = true ->
  clear_transcript_folder folder_path w = (Ok tt, w') ->
  wf_store (fs w') = true.
Proof.
  intros Hwf Hp Hd Hrun.
  unfold clear_transcript_folder, bind at 1, os_path_exists in Hrun.
  rewrite path_exists_dir in Hrun by assumption.
  unfold bind at 1 in Hrun. unfold bind at 1, os_listdir in Hrun.
  rewrite listdir_dir in Hrun by assumption.
  destruct (for_each _ _ w) as [[[]|e] w1] eqn:Hloop; [|discriminate].
  injection Hrun as <-. cbn [fs].
  eapply clear_loop_wf; [|exact Hloop|exact Hwf].
  apply Forall_forall. intros n Hn. eapply children_plain; eassumption.
Qed.

(** X12.  Clearing keeps the file system well formed, and clearing a
    second time deletes nothing more: after the first pass the folder
    holds only what cannot be deleted. *)
Theorem clear_transcript_folder_twice (folder_path : str) (w : world) :
  wf_store (fs w) = true ->
  folder_path <> [] ->
  is_dir (fs w) (resolve folder_path) = true ->
  exists w' w'',
    clear_transcript_folder folder_path w = (Ok tt, w')
    /\ wf_store (fs w') = true
    /\ clear_transcript_folder folder_path w' = (Ok tt, w'')
    /\ (forall l, lookup (fs w'') l = lookup (fs w') l)
    /\ (forall n, is_file (fs w') (resolve folder_path ++ [n]) = true ->
                  pinned_file (lookup (fs w) (resolve folder_path ++ [n])) = true).
Proof.
  intros Hwf Hp Hd.
  destruct (@clear_transcript_folder_run folder_path w Hwf Hp Hd)
    as (w' & Hrun & Hlook & _).
  pose proof (@clear_transcript_folder_wf folder_path w w' Hwf Hp Hd Hrun) as Hwf'.
  assert (Hd' : is_dir (fs w') (resolve folder_path) = true).
  { unfold is_dir in *. rewrite Hlook.
    destruct (is_base (resolve folder_path)); [reflexivity|]. cbn [orb] in *.
    destruct (lookup (fs w) (resolve folder_path)) as [[c pin|]|]; try discriminate.
    rewrite andb_false_r. reflexivity. }
  destruct (@clear_transcript_folder_run folder_path w' Hwf' Hp Hd')
    as (w'' & Hrun2 & Hlook2 & _).
  exists w', w''. repeat split; try assumption.
  - intros l. rewrite Hlook2, Hlook.
    destruct (is_child (resolve folder_path) l); [|reflexivity]. cbn [andb].
    destruct (unpinned_file (lookup (fs w) l)) eqn:E; [reflexivity|].
    rewrite E. reflexivity.
  - intros n Hf. unfold is_file in Hf. rewrite Hlook in Hf.
    unfold is_child in Hf. rewrite child_name_child in Hf. cbn [andb] in Hf.
    destruct (lookup (fs w) (resolve folder_path ++ [n])) as [[c [|]|]|];
      cbn in Hf; rewrite ?andb_false_r in Hf; try discriminate; reflexivity.
Qed.

(** ** Runs of the whole script *)

Lemma bind_raise (A B : Type) (m : M A) (k : A -> M B) (w w' : world) (e : exn) :
  m w = (Raise e, w') -> bind m k w = (Raise e, w').
Proof. intros H. unfold bind. rewrite H. reflexivity. Qed.

Lemma bind_raise_inv (A B : Type) (m : M A) (k : A -> M B) (w w' : world) (e : exn) :
  bind m k w = (Raise e, w') ->
  m w = (Raise e, w') \/ exists a w1, m w = (Ok a, w1) /\ k a w1 = (Raise e, w').
Proof.
  unfold bind. destruct (m w) as [[a|e1] w1]; intros H.
  - right. exists a, w1. split; [reflexivity | exact H].
  - left. injection H as -> ->. reflexivity.
Qed.

Lemma for_each_raise_inv (A : Type) (xs : list A) (body : A -> M unit)
    (w w' : world) (e : exn) :
  for_each xs body w = (Raise e, w') ->
  exists x w1, In x xs /\ body x w1 = (Raise e, w').
Proof.
  revert w. induction xs as [|x xs IH]; intros w H; [discriminate H|].
  cbn [for_each] in H. apply bind_raise_inv in H.
  destruct H as [H|(a & w1 & _ & H)].
  - exists x, w. split; [left; reflexivity | assumption].
  - destruct (IH _ H) as (y & w2 & Hy & Hb). exists y, w2. split; [right|]; assumption.
Qed.

Lemma video_ids_raise (vs : videos) (e : exn) :
  video_ids_of vs = Raise e -> exists records, vs = yields records (Broken e).
Proof.
  destruct (videos_shape vs) as (records & [->|(e' & ->)]);
    rewrite video_ids_of_yields; cbn [video_ids_of]; [discriminate|].
  intros [= ->]. eauto.
Qed.

Section RunsMore.

Variable isdigit : char -> bool.
Variable get_transcript : str -> outcome (list caption).
Variable get_channel : str -> videos.
Variable drive_create : str -> str -> outcome (option str).

Local Abbreviation run := (main isdigit get_transcript get_channel drive_create) (only parsing).

Lemma download_never_raises (video_id output_dir : str) (w : world) :
  exists b w', download_transcript isdigit get_transcript video_id output_dir w = (Ok b, w').
Proof.
  rewrite download_transcript_cases.
  destruct (get_transcript video_id) as [fragments|e]; [|eauto].
  cbv zeta. destruct (truthy _); [|eauto].
  destruct (write_text _ _ _); eauto.
Qed.

(** X13.  Unless the Download button was pressed with a channel URL
    entered, [main] touches neither the file system nor the log: no
    folder is made or cleared and nothing is fetched. *)
Theorem main_idle (inp : session) (w : world) :
  download_clicked inp = false \/ truthy (channel_url_input inp) = false ->
  exists w',
    run inp w = (Ok tt, w')
    /\ fs w' = fs w /\ stdout w' = stdout w /\ buffers w' = buffers w
    /\ (download_clicked inp = true ->
        page w' = page w ++ [Title; TextInput (lit "youtube.com/@channel");
                             TextInput (lit "Name new file"); Button (lit "Download");
                             ErrorBox (lit "Please enter a channel URL")]).
Proof.
  intros H. unfold main. do 4 step.
  destruct (download_clicked inp) eqn:Hc.
  - destruct H as [H|H]; [discriminate|]. rewrite H. cbn [negb].
    eexists. split; [reflexivity|]. cbn [fs stdout buffers page].
    repeat split. intros _. rewrite <- !app_assoc. reflexivity.
  - eexists. split; [reflexivity|]. cbn [fs stdout buffers page].
    repeat split. discriminate.
Qed.

(** X14.  A failure of the channel listing ends the run with the
    scraper's exception.  By then the transcripts folder exists and has
    been cleared: the transcripts of an earlier run that could be deleted
    are gone.  Nothing else has changed; no combined file is written. *)
Theorem listing_failure_run
    (inp : session) (w : world) (records : list video) (e : exn) :
  download_clicked inp = true ->
  truthy (channel_url_input inp) = true ->
  get_channel (channel_url_input inp) = yields records (Broken e) ->
  wf_store (fs w) = true ->
  is_file (fs w) transcripts_folder = false ->
  exists w',
    run inp w = (Raise e, w')
    /\ is_dir (fs w') transcripts_folder = true
    /\ (forall l, l <> transcripts_folder ->
                  lookup (fs w') l =
                  if is_child transcripts_folder l && unpinned_file (lookup (fs w) l)
                  then None else lookup (fs w) l)
    /\ stdout w' = stdout w.
Proof.
  intros Hclick Hurl Hchan Hwf Hnf.
  unfold main. rewrite Hclick, Hurl. cbn [negb].
  do 4 step. step.
  match goal with
  | |- context [bind (if negb _ then _ else _) _ ?W] =>
      destruct (@folder_made W Hwf Hnf)
        as (w1 & Hmk & Hwf1 & Hdir1 & Hsame1 & Hdirs1 & _)
  end.
  cbn [fs] in Hmk, Hsame1, Hdirs1. rewrite (@bind_ok _ _ _ _ _ _ _ Hmk).
  assert (Hout1 : stdout w1 = stdout w).
  { destruct (negb (path_exists (fs w) (lit "transcripts"))).
    - unfold os_makedirs in Hmk. cbn [fs] in Hmk.
      destruct (makedirs (fs w) (lit "transcripts")); [|discriminate].
      injection Hmk as <-. reflexivity.
    - injection Hmk as <-. reflexivity. }
  assert (Hne : lit "transcripts" <> []) by discriminate.
  destruct (@clear_transcript_folder_run (lit "transcripts") w1 Hwf1 Hne Hdir1)
    as (w2 & Hcl & Hlook2 & _ & Hout2 & _).
  fold transcripts_folder in Hlook2. rewrite (@bind_ok _ _ _ _ _ _ _ Hcl).
  step.
  erewrite bind_raise
    by (unfold get_all_video_ids, lift; rewrite Hchan, video_ids_of_yields; reflexivity).
  eexists. split; [reflexivity|]. cbn [fs stdout]. split; [|split].
  - unfold is_dir in *. rewrite Hlook2, folder_not_own_child. assumption.
  - intros l Hl. rewrite Hlook2, Hsame1 by assumption. reflexivity.
  - congruence.
Qed.


End RunsMore.

(** ** A whole run, from the channel to the combined file *)

Lemma wf_store_same_keys (st st' : store) :
  map fst st' = map fst st -> wf_store st' = wf_store st.
Proof. unfold wf_store. intros ->. reflexivity. Qed.

Lemma startswith_app (p s : str) : startswith p (p ++ s) = true.
Proof.
  induction p as [|c p IH]; [reflexivity|]. cbn [app startswith].
  rewrite N.eqb_refl. assumption.
Qed.

Lemma endswith_app (p s : str) : endswith p (s ++ p) = true.
Proof. unfold endswith. rewrite rev_app_distr. apply startswith_app. Qed.

Lemma key_ok_in_folder (n : str) :
  plain_name n = true -> key_ok (transcripts_folder ++ [n]) = true.
Proof.
  intros H. change (transcripts_folder ++ [n]) with [lit "transcripts"; n].
  unfold key_ok. change (str_eqb (lit "transcripts") ROOT) with false. cbv iota.
  cbn [forallb]. change (plain_name (lit "transcripts")) with true. rewrite H. reflexivity.
Qed.

Lemma folder_not_entry (n : str) : transcripts_folder ++ [n] <> transcripts_folder.
Proof. change transcripts_folder with [lit "transcripts"]. discriminate. Qed.

Lemma resolve_in_folder (n : str) :
  plain_name n = true ->
  resolve (os_path_join (lit "transcripts") n) = transcripts_folder ++ [n].
Proof. intros H. apply resolve_join. assumption. Qed.

Section FullRun.

Variable isdigit : char -> bool.
Variable get_transcript : str -> outcome (list caption).
Variable get_channel : str -> videos.
Variable drive_create : str -> str -> outcome (option str).

Local Abbreviation cleaned := (cleaned_transcript isdigit get_transcript) (only parsing).
Local Abbreviation inv := (downloaded isdigit get_transcript) (only parsing).

(** A video without a transcript leaves the folder as it is. *)
Lemma downloaded_skip (done : list str) (st0 st : store) (video_id : str) :
  inv done st0 st -> cleaned video_id = None -> inv (done ++ [video_id]) st0 st.
Proof.
  intros (Hwf & Hd & Hb & Hc & Hout & Hdirs) Hnone.
  split; [assumption|]. split; [assumption|]. split; [|split; [|split; assumption]].
  - intros n node Hn Hl. destruct (Hb n node Hn Hl) as (id & c & pin & H1 & H2 & H3 & H4).
    exists id, c, pin. repeat split; try assumption. apply in_or_app. auto.
  - intros id c Hin Hcl. apply in_app_or in Hin. destruct Hin as [Hin|[<-|[]]].
    + eauto.
    + congruence.
Qed.

(** A video with a transcript gets its file in the folder. *)
Lemma downloaded_write (done : list str) (st0 st : store) (video_id c : str) :
  inv done st0 st ->
  plain_name (video_id ++ lit ".txt") = true ->
  cleaned video_id = Some c ->
  exists st',
    write_text st (os_path_join (lit "transcripts") (video_id ++ lit ".txt")) c = Ok st'
    /\ inv (done ++ [video_id]) st0 st'.
Proof.
  intros (Hwf & Hd & Hb & Hc & Hout & Hdirs) Hn Hcl.
  pose proof (resolve_in_folder _ Hn) as Hres.
  pose proof (plain_name_facts _ Hn) as (Hne & _).
  assert (Hnotdir : is_dir st (transcripts_folder ++ [video_id ++ lit ".txt"]) = false).
  { unfold is_dir. rewrite child_not_base by assumption. cbn [orb].
    destruct (lookup st (transcripts_folder ++ [video_id ++ lit ".txt"])) as [node|] eqn:E;
      [|reflexivity].
    destruct (Hb _ _ (endswith_app (lit ".txt") video_id) E) as (? & ? & ? & _ & _ & _ & ->).
    reflexivity. }
  destruct (proj2 (open_w_ok st (os_path_join (lit "transcripts") (video_id ++ lit ".txt"))))
    as (st1 & Ho).
  { split; [apply join_not_empty; assumption|]. rewrite Hres. split; [assumption|].
    right. rewrite removelast_last. assumption. }
  set (L := transcripts_folder ++ [video_id ++ lit ".txt"]) in *.
  assert (Hw : write_text st (os_path_join (lit "transcripts") (video_id ++ lit ".txt")) c
               = Ok (set_content st1 L c)).
  { unfold write_text. rewrite Ho, Hres. reflexivity. }
  exists (set_content st1 L c). split; [exact Hw|].
  apply write_text_spec in Hw. rewrite Hres in Hw.
  destruct Hw as ((pin & Hfile) & Hsame & Hkeys).
  set (st' := set_content st1 L c) in *.
  split; [|split; [|split; [|split; [|split]]]].
  - destruct Hkeys as [Hk|[Hk Hfree]].
    + rewrite (wf_store_same_keys _ _ Hk). assumption.
    + rewrite (wf_store_same_keys (st ++ [(L, Dir)]) st') by (rewrite Hk, map_app; reflexivity).
      apply wf_store_add; [assumption | assumption | apply key_ok_in_folder; assumption].
  - unfold is_dir in *. rewrite Hsame; [assumption|].
    apply not_eq_sym. apply folder_not_entry.
  - intros n node Htxt Hl.
    destruct (loc_eqb L (transcripts_folder ++ [n])) eqn:E.
    + apply loc_eqb_eq in E. unfold L in E. apply app_inj_tail in E. destruct E as [_ <-].
      fold L in Hl. rewrite Hfile in Hl. injection Hl as <-.
      exists video_id, c, pin. repeat split; try assumption. apply in_or_app. right. left. reflexivity.
    + apply loc_eqb_neq in E. rewrite Hsame in Hl by (intros E'; apply E; symmetry; exact E').
      destruct (Hb n node Htxt Hl) as (id & c' & pin' & H1 & H2 & H3 & H4).
      exists id, c', pin'. repeat split; try assumption. apply in_or_app. auto.
  - intros id c' Hin Hcl'.
    destruct (loc_eqb L (transcripts_folder ++ [id ++ lit ".txt"])) eqn:E.
    + apply loc_eqb_eq in E. unfold L in E. apply app_inj_tail in E. destruct E as [_ E].
      apply app_inv_tail in E. subst id.
      assert (c' = c) by congruence. subst c'. exists pin. exact Hfile.
    + apply loc_eqb_neq in E. rewrite Hsame by (intros E'; apply E; symmetry; exact E').
      apply in_app_or in Hin. destruct Hin as [Hin|[<-|[]]]; [eauto|].
      exfalso. apply E. reflexivity.
  - intros l Hl. rewrite Hsame; [auto|].
    unfold L. apply is_child_false. assumption.
  - intros l Hl. apply Hdirs in Hl. unfold is_dir in *.
    destruct (loc_eqb L l) eqn:E.
    + apply loc_eqb_eq in E. subst l. congruence.
    + apply loc_eqb_neq in E. rewrite Hsame by (intros E'; apply E; symmetry; exact E').
      assumption.
Qed.

(** One download in the loop of [main]. *)
Lemma download_step (done : list str) (st0 : store) (video_id : str) (w : world) :
  inv done st0 (fs w) ->
  plain_name (video_id ++ lit ".txt") = true ->
  exists b w',
    download_transcript isdigit get_transcript video_id (lit "transcripts") w = (Ok b, w')
    /\ inv (done ++ [video_id]) st0 (fs w')
    /\ stdout w' = stdout w ++ skip_lines get_transcript video_id.
Proof.
  intros Hinv Hn. rewrite download_transcript_cases.
  pose proof (@downloaded_skip done st0 (fs w) video_id Hinv) as Hskip.
  pose proof (fun c => @downloaded_write done st0 (fs w) video_id c Hinv Hn) as Hwrite.
  unfold cleaned_transcript in Hskip, Hwrite. unfold skip_lines.
  destruct (get_transcript video_id) as [fragments|e].
  - cbv zeta. destruct (truthy (join (lit " ") (map text fragments))).
    + destruct (Hwrite _ eq_refl) as (st' & Hw & Hinv'). rewrite Hw.
      eexists. eexists. split; [reflexivity|]. split; [exact Hinv'|].
      cbn [stdout set_fs]. rewrite app_nil_r. reflexivity.
    + eexists. eexists. split; [reflexivity|]. split; [exact (Hskip eq_refl) | reflexivity].
  - eexists. eexists. split; [reflexivity|]. split; [exact (Hskip eq_refl) | reflexivity].
Qed.

(** The loop of [main] over the videos: it returns, and every video with
    a transcript has its file. *)
Lemma download_loop (st0 : store) (total : nat) (video_ids : list str) :
  Forall (fun video_id => plain_name (video_id ++ lit ".txt") = true) video_ids ->
  forall (k : nat) (done : list str) (w : world),
    video_ids = [] \/ total <> 0 ->
    inv done st0 (fs w) ->
    exists w',
      for_each (enumerate k video_ids) (fun '(i, video_id) =>
        progress <- progress_of i total ;;
        show progress ;;
        show (Status (lit "Processing video " ++ str_of_nat i ++ lit " of "
                        ++ str_of_nat total)) ;;
        _ <- download_transcript isdigit get_transcript video_id (lit "transcripts") ;;
        ret tt) w
      = (Ok tt, w')
      /\ inv (done ++ video_ids) st0 (fs w')
      /\ stdout w' = stdout w ++ flat_map (skip_lines get_transcript) video_ids.
Proof.
  induction 1 as [|video_id video_ids Hn _ IH]; intros k done w Htotal Hinv.
  - exists w. rewrite !app_nil_r. split; [reflexivity|]. split; [assumption | reflexivity].
  - destruct Htotal as [Htotal|Htotal]; [discriminate Htotal|].
    revert IH. intros IH.
    destruct (@download_step done st0 video_id
                (mk_world (fs w) (buffers w) (stdout w)
                   ((page w ++ [ProgressSet k total])
                      ++ [Status (lit "Processing video " ++ str_of_nat k ++ lit " of "
                                    ++ str_of_nat total)])) Hinv Hn)
      as (b & w1 & Hd & Hinv1 & Hlog1).
    destruct (IH (S k) (done ++ [video_id]) w1 (or_intror Htotal) Hinv1)
      as (w' & Hrun & Hinv' & Hlog').
    exists w'. rewrite <- app_assoc in Hinv'. split; [|split; [exact Hinv'|]].
    2:{ rewrite Hlog', Hlog1. cbn [stdout flat_map]. rewrite <- app_assoc. reflexivity. }
    cbn [enumerate for_each]. rewrite <- Hrun.
    destruct total as [|t]; [congruence|].
    unfold bind at 1. unfold bind at 1, progress_of, ret at 1.
    unfold bind at 1, show at 1. unfold bind at 1, show at 1.
    cbn [fs buffers stdout page]. unfold bind at 1. rewrite Hd. reflexivity.
Qed.

Lemma content_at_file (st : store) (l : loc) (c : str) (pin : bool) :
  lookup st l = Some (File c pin) -> content_at st l = c.
Proof. intros H. unfold content_at. rewrite H. reflexivity. Qed.

Lemma is_file_child (st : store) (d : loc) (n c : str) (pin : bool) :
  plain_name n = true -> lookup st (d ++ [n]) = Some (File c pin) ->
  is_file st (d ++ [n]) = true.
Proof.
  intros Hn H. unfold is_file. rewrite child_not_base by assumption. rewrite H. reflexivity.
Qed.

Lemma lookup_set_content_other (st : store) (l l' : loc) (c : str) :
  l <> l' -> lookup (set_content st l c) l' = lookup st l'.
Proof.
  intros H. rewrite lookup_set_content. apply loc_eqb_neq in H. rewrite H. reflexivity.
Qed.

Lemma upload_to_drive_keeps
    (drive : str -> str -> outcome (option str)) (file_path folder : str) (w : world) :
  exists r w',
    upload_to_drive drive file_path folder w = (Ok r, w')
    /\ fs w' = fs w /\ stdout w' = stdout w.
Proof.
  unfold upload_to_drive, try_except, lift.
  destruct (drive file_path folder) as [r|e]; [eauto|].
  unfold bind, show, ret. cbn. eauto.
Qed.

Lemma Forall_exists_map (A B : Type) (f : A -> B) (P : A -> Prop) (ys : list B) :
  Forall (fun y => exists x, y = f x /\ P x) ys ->
  exists xs, ys = map f xs /\ Forall P xs.
Proof.
  induction 1 as [|y ys (x & -> & Hx) _ (xs & -> & Hxs)].
  - exists []. split; [reflexivity | constructor].
  - exists (x :: xs). split; [reflexivity | constructor; assumption].
Qed.

(** What the combined file is made of once the videos [video_ids] have
    been gone through. *)
Lemma combined_of_downloaded (video_ids : list str) (st0 st : store) :
  inv video_ids st0 st ->
  exists names,
    NoDup names
    /\ (forall video_id, In video_id names <->
                         In video_id video_ids /\ cleaned video_id <> None)
    /\ combined st (lit "transcripts")
       = List.concat (map (fun video_id =>
                             transcript_text isdigit get_transcript video_id ++ [NL; NL])
                          names)
    /\ (forall video_id, In video_id names ->
          exists pin, lookup st (transcripts_folder ++ [video_id ++ lit ".txt"])
                      = Some (File (transcript_text isdigit get_transcript video_id) pin))
    /\ txt_names st (lit "transcripts") = map (fun video_id => video_id ++ lit ".txt") names.
Proof.
  intros (Hwf & Hd & Hb & Hc & _ & _).
  assert (HT : Forall (fun n => exists video_id,
                         n = video_id ++ lit ".txt"
                         /\ (In video_id video_ids
                             /\ exists c pin,
                                  cleaned video_id = Some c
                                  /\ lookup st (transcripts_folder ++ [video_id ++ lit ".txt"])
                                     = Some (File c pin)))
                      (txt_names st (lit "transcripts"))).
  { apply Forall_forall. intros n Hn. unfold txt_names in Hn. apply filter_In in Hn.
    destruct Hn as [Hn Htxt]. fold transcripts_folder in Hn. apply children_lookup in Hn.
    destruct (lookup st (transcripts_folder ++ [n])) as [node|] eqn:E;
      [|exfalso; apply Hn; exact E].
    destruct (Hb n node Htxt E) as (id & c & pin & -> & Hin & Hcl & ->).
    exists id. repeat split; try assumption. exists c, pin. split; assumption. }
  pose proof HT as HT'. apply Forall_exists_map in HT'. destruct HT' as (names & HT' & Hnames).
  rewrite Forall_forall in Hnames.
  exists names. split; [|split; [|split; [|split]]].
  - apply (NoDup_map_inv (fun video_id => video_id ++ lit ".txt")). rewrite <- HT'.
    unfold txt_names. apply NoDup_filter. apply children_NoDup. assumption.
  - intros id. split.
    + intros Hin. destruct (Hnames id Hin) as (Hin' & c & pin & Hcl & _).
      split; [assumption | congruence].
    + intros (Hin & Hcl). destruct (cleaned id) as [c|] eqn:E; [|congruence].
      destruct (Hc id c Hin E) as (pin & Hl).
      assert (Hn : In (id ++ lit ".txt") (txt_names st (lit "transcripts"))).
      { unfold txt_names. apply filter_In. split; [|apply endswith_app].
        fold transcripts_folder. apply children_lookup.
        intros Hx. pose proof (eq_trans (eq_sym Hl) Hx) as Hy. discriminate Hy. }
      rewrite HT' in Hn. apply in_map_iff in Hn. destruct Hn as (id' & E' & Hin').
      apply app_inv_tail in E'. subst id'. assumption.
  - unfold combined. fold transcripts_folder. rewrite HT', map_map. f_equal.
    apply map_ext_in. intros id Hin. destruct (Hnames id Hin) as (_ & c & pin & Hcl & Hl).
    f_equal. etransitivity; [exact (content_at_file _ _ Hl)|].
    unfold transcript_text. rewrite Hcl. reflexivity.
  - intros id Hin. destruct (Hnames id Hin) as (_ & c & pin & Hcl & Hl).
    exists pin. unfold transcript_text. rewrite Hcl. assumption.
  - exact HT'.
Qed.


End FullRun.

(** ** The further properties on sample data *)

Lemma one_line_transcript_all_or_nothing_witness :
  remove_timestamps ascii_digit
    (join (lit " ") (map text [mk_caption (lit "hello"); mk_caption (lit "world")]))
  = lit "hello world".
Proof.
  etransitivity.
  - apply (@one_line_transcript_all_or_nothing ascii_digit
             [mk_caption (lit "hello"); mk_caption (lit "world")]).
    repeat constructor; cbn [text];
      [apply (sample_one_line "hello") | apply (sample_one_line "world")]; reflexivity.
  - reflexivity.
Defined.

Lemma timestamps_only_written_empty_witness :
  exists w' pin,
    download_transcript ascii_digit timestamp_api (lit "a1") (lit "transcripts")
      (world_of [([lit "transcripts"], Dir)]) = (Ok true, w')
    /\ lookup (fs w') (resolve (os_path_join (lit "transcripts") (lit "a1" ++ lit ".txt")))
       = Some (File [] pin)
    /\ stdout w' = stdout (world_of [([lit "transcripts"], Dir)]).
Proof.
  eapply (@timestamps_only_written_empty ascii_digit timestamp_api (lit "a1")
            (lit "transcripts") [mk_caption sample_timestamp]).
  - reflexivity.
  - reflexivity.
  - constructor; [|constructor]. exists sample_timestamp, [].
    split; [exact sample_is_timestamp | reflexivity].
  - reflexivity.
Defined.

Lemma download_without_folder_witness :
  exists e,
    (exn_kind e = FileNotFoundError \/ exn_kind e = NotADirectoryError)
    /\ download_transcript ascii_digit sample_api (lit "a1") (lit "transcripts") (world_of [])
       = (Ok false,
          mk_world [] [] [lit "Failed to download transcript for video ID " ++ lit "a1"
                            ++ lit ": " ++ exn_str e] []).
Proof.
  apply (@download_without_folder ascii_digit sample_api (lit "a1") (lit "transcripts")
           [mk_caption (lit "hello"); mk_caption (lit "world")] (world_of []));
    reflexivity.
Defined.

Lemma download_twice_witness :
  exists w'',
    download_transcript ascii_digit sample_api (lit "a1") (lit "transcripts")
      (snd (download_transcript ascii_digit sample_api (lit "a1") (lit "transcripts")
              (world_of sample_store)))
    = (Ok true, w'')
    /\ fs w'' = fs (snd (download_transcript ascii_digit sample_api (lit "a1")
                           (lit "transcripts") (world_of sample_store))).
Proof.
  apply (@download_twice ascii_digit sample_api (lit "a1") (lit "transcripts")
           (world_of sample_store)).
  reflexivity.
Defined.

Lemma concatenate_without_folder_witness :
  exists e w' pin,
    concatenate_transcripts (lit "transcripts") (lit "combined_transcripts.txt")
      (world_of []) = (Raise e, w')
    /\ (exn_kind e = FileNotFoundError \/ exn_kind e = NotADirectoryError)
    /\ lookup (fs w') (resolve (lit "combined_transcripts.txt")) = Some (File [] pin)
    /\ (forall l, l <> resolve (lit "combined_transcripts.txt") ->
                  lookup (fs w') l = lookup (fs (world_of [])) l)
    /\ buffers w' = buffers (world_of []).
Proof.
  eapply (@concatenate_without_folder (lit "transcripts") (lit "combined_transcripts.txt")
            (world_of [])).
  - reflexivity.
  - right. reflexivity.
Defined.


Lemma concatenate_twice_witness :
  exists w',
    concatenate_transcripts (lit "transcripts") (lit "combined_transcripts.txt")
      (world_of sample_store) = (Ok tt, w')
    /\ concatenate_transcripts (lit "transcripts") (lit "combined_transcripts.txt") w'
       = (Ok tt, w').
Proof.
  eapply (@concatenate_twice (lit "transcripts") (lit "combined_transcripts.txt")
            (world_of sample_store)).
  - reflexivity.
  - discriminate.
  - reflexivity.
  - intros n Hn. vm_compute in Hn. destruct Hn as [<-|[<-|[]]]; reflexivity.
  - reflexivity.
  - intros n _ H. vm_compute in H. discriminate H.
Defined.

Lemma clear_transcript_folder_twice_witness :
  exists w' w'',
    clear_transcript_folder (lit "transcripts") (world_of pinned_store) = (Ok tt, w')
    /\ wf_store (fs w') = true
    /\ clear_transcript_folder (lit "transcripts") w' = (Ok tt, w'')
    /\ (forall l, lookup (fs w'') l = lookup (fs w') l)
    /\ (forall n, is_file (fs w') (resolve (lit "transcripts") ++ [n]) = true ->
                  pinned_file (lookup (fs (world_of pinned_store))
                                 (resolve (lit "transcripts") ++ [n])) = true).
Proof.
  apply (@clear_transcript_folder_twice (lit "transcripts") (world_of pinned_store)).
  - reflexivity.
  - discriminate.
  - reflexivity.
Defined.

Lemma main_idle_witness :
  exists w',
    main ascii_digit sample_api two_videos no_drive idle_session
      (world_of sample_store) = (Ok tt, w')
    /\ fs w' = sample_store.
Proof.
  destruct (@main_idle ascii_digit sample_api two_videos no_drive idle_session
              (world_of sample_store)) as (w' & Hrun & Hfs & _).
  - right. reflexivity.
  - exists w'. split; [exact Hrun | exact Hfs].
Defined.

Lemma listing_failure_run_witness :
  exists w',
    main ascii_digit sample_api broken_channel no_drive sample_session
      (world_of sample_store) = (Raise (mk_exn TooManyRequests (lit "429")), w')
    /\ lookup (fs w') [lit "transcripts"; lit "a1.txt"] = None
    /\ lookup (fs w') [lit "combined_transcripts.txt"] = None.
Proof.
  destruct (@listing_failure_run ascii_digit sample_api broken_channel no_drive
              sample_session (world_of sample_store) [mk_video (lit "a1")]
              (mk_exn TooManyRequests (lit "429")))
    as (w' & Hrun & _ & Hlook & _); try reflexivity.
  exists w'. split; [exact Hrun|].
  split; (etransitivity; [apply Hlook; discriminate | reflexivity]).
Defined.



Lemma remove_timestamps_unchanged_iff_witness :
  remove_timestamps ascii_digit (lit "hello") = lit "hello".
Proof.
  apply (proj2 (remove_timestamps_unchanged_iff ascii_digit (lit "hello"))).
  repeat constructor. apply (keep_iff ascii_digit). reflexivity.
Defined.

Lemma clear_transcript_folder_raises_iff_witness :
  clear_transcript_folder (lit "transcripts") (world_of file_for_folder_store)
  = (Raise (enotdir (lit "transcripts")), world_of file_for_folder_store).
Proof.
  destruct (@clear_transcript_folder_raises_iff (lit "transcripts")
              (world_of file_for_folder_store)) as (_ & Hfile & _).
  - reflexivity.
  - apply Hfile. reflexivity.
Defined.
